(** * bootstrap/widgets.py: styled form widgets and the ModelWidgets resolver

  A shallow embedding of [src/bootstrap/widgets.py].  Python objects that
  the module shares between calls (the attribute dictionaries and the
  class-level configuration dictionaries) live in an explicit heap, so
  that aliasing and in-place updates are visible in the statements.
  Everything belonging to the host framework (parent [render], model
  introspection, default widgets) is taken as data or as a parameter. *)

From Stdlib Require Import ZArith Ascii String.
From stdpp Require Import base option list strings gmap fin_maps.

Local Open Scope string_scope.

(** ** Python values, exceptions and dictionary displays *)

Module Py.

Inductive exn : Set :=
| KeyError
| TypeError
| NameError
| AttributeError
| FieldDoesNotExist.

#[global] Instance exn_eq_dec : EqDecision exn.
Proof. solve_decision. Defined.

Inductive result (A : Type) : Type :=
| Ok (a : A)
| Raise (e : exn).
Arguments Ok {A} a.
Arguments Raise {A} e.

Definition bind {A B} (r : result A) (k : A → result B) : result B :=
  match r with
  | Ok a => k a
  | Raise e => Raise e
  end.

(** [try: body except e: handler] *)
Definition try_except {A} (body : result A) (e : exn) (handler : result A)
  : result A :=
  match body with
  | Ok a => Ok a
  | Raise e' => if decide (e' = e) then handler else Raise e'
  end.

(** The values a form field can carry.  [VList] stands for the
    unhashable objects (lists, dicts); floats are left out. *)
#[warnings="-register-all"]
Inductive value : Type :=
| VNone
| VBool (b : bool)
| VInt (n : Z)
| VStr (s : string)
| VList (items : list value).

(** [hash(v)] succeeds *)
Definition hashable (v : value) : bool :=
  match v with
  | VList _ => false
  | _ => true
  end.

(** [bool] is a subclass of [int]: [True == 1] and [False == 0], with
    equal hashes. *)
Definition as_int (v : value) : option Z :=
  match v with
  | VBool b => Some (if b then 1%Z else 0%Z)
  | VInt n => Some n
  | _ => None
  end.

(** [a == b] on hashable values, as a dictionary uses it to compare a
    probe with a stored key *)
Definition key_eqb (a b : value) : bool :=
  match a, b with
  | VNone, VNone => true
  | VStr s, VStr t => String.eqb s t
  | (VBool _ | VInt _), (VBool _ | VInt _) =>
      bool_decide (as_int a = as_int b)
  | _, _ => false
  end.

(** A dictionary display [{k1: v1, ...}] with hashable keys, in source
    order. *)
Definition dict := list (value * value).

Fixpoint find_key (d : dict) (k : value) : option value :=
  match d with
  | [] => None
  | (k', v) :: d' => if key_eqb k' k then Some v else find_key d' k
  end.

(** [d[k]]: the probe is hashed first (TypeError), then searched
    (KeyError). *)
Definition getitem (d : dict) (k : value) : result value :=
  if hashable k then
    match find_key d k with
    | Some v => Ok v
    | None => Raise KeyError
    end
  else Raise TypeError.

(** [d.get(k)]: as [d[k]], with [None] for a missing key. *)
Definition get (d : dict) (k : value) : result value :=
  if hashable k then Ok (default VNone (find_key d k))
  else Raise TypeError.

End Py.

Import Py.

(** ** NullBooleanRadioSelect: the tri-state control *)

Module NullBooleanRadioSelect.

(** the dictionary display in [render] *)
Definition render_codes : dict :=
  [ (VBool true, VStr "2");
    (VBool false, VStr "3");
    (VStr "2", VStr "2");
    (VStr "3", VStr "3") ].

(** [render(self, name, value, attrs=None)].  The parent class's
    [render] belongs to the host framework and is a parameter. *)
Definition render {Attrs Html : Type}
    (super_render : string → value → Attrs → result Html)
    (name : string) (value : value) (attrs : Attrs) : result Html :=
  bind
    (try_except (getitem render_codes value) KeyError (Ok (VStr "1")))
    (λ value, super_render name value attrs).

(** the dictionary display in [value_from_datadict] *)
Definition parsed_values : dict :=
  [ (VStr "2", VBool true);
    (VBool true, VBool true);
    (VStr "True", VBool true);
    (VStr "3", VBool false);
    (VStr "False", VBool false);
    (VBool false, VBool false) ].

(** [value_from_datadict(self, data, files, name)].  [data] is the
    submitted mapping; [data.get(name)] is [None] for a missing key. *)
Definition value_from_datadict {Files : Type}
    (data : gmap string value) (files : Files) (name : string)
  : result value :=
  let value := default VNone (data !! name) in
  get parsed_values value.

End NullBooleanRadioSelect.

(** ** Text helpers: [str.strip] and [str.join] *)

(** [c.isspace()] for a code point below 256 *)
Definition is_space (c : ascii) : bool :=
  let n := nat_of_ascii c in
  (((9 <=? n) && (n <=? 13)) || ((28 <=? n) && (n <=? 32))
   || (n =? 133) || (n =? 160))%nat.

Fixpoint lstrip (s : string) : string :=
  match s with
  | EmptyString => EmptyString
  | String c s' => if is_space c then lstrip s' else s
  end.

Fixpoint rstrip (s : string) : string :=
  match s with
  | EmptyString => EmptyString
  | String c s' =>
      match rstrip s' with
      | EmptyString => if is_space c then EmptyString else String c EmptyString
      | r => String c r
      end
  end.

(** [s.strip()] *)
Definition strip (s : string) : string := rstrip (lstrip s).

(** [sep.join(l)] *)
Definition join (sep : string) (l : list string) : string :=
  String.concat sep l.

(** ** State with exceptions, and dictionaries held by reference *)

Definition M (S A : Type) : Type := S → result A * S.

Definition ret {S A} (a : A) : M S A := λ s, (Ok a, s).

Definition mbind' {S A B} (m : M S A) (k : A → M S B) : M S B :=
  λ s, match m s with
       | (Ok a, s') => k a s'
       | (Raise e, s') => (Raise e, s')
       end.

Notation "'do' x <- m ; k" := (mbind' m (λ x, k))
  (at level 10, x name, m at level 100, k at level 200,
   format "'[v' 'do'  x  <-  m ; '/' k ']'").
Notation "m ;; k" := (mbind' m (λ _, k))
  (at level 100, k at level 200, right associativity).

Definition lift {S A} (r : result A) : M S A := λ s, (r, s).

Definition get_state {S} : M S S := λ s, (Ok s, s).

Module Heap.

Definition loc := nat.

(** A store of dictionaries with string keys; [next] is the first
    address never handed out. *)
Record heap (V : Type) : Type :=
  Build { cells : gmap loc (gmap string V); next : loc }.
Arguments Build {V} cells next.
Arguments cells {V} h.
Arguments next {V} h.

Section ops.
Context {V : Type}.

Definition deref (h : heap V) (l : loc) : gmap string V :=
  default ∅ (cells h !! l).

Definition allocated (h : heap V) (l : loc) : Prop := l < next h.

Definition alloc (d : gmap string V) : M (heap V) loc :=
  λ h, (Ok (next h), Build (<[next h := d]> (cells h)) (S (next h))).

Definition read (l : loc) : M (heap V) (gmap string V) :=
  λ h, (Ok (deref h l), h).

Definition write (l : loc) (d : gmap string V) : M (heap V) unit :=
  λ h, (Ok tt, Build (<[l := d]> (cells h)) (next h)).

(** [dict(src, **kwargs)]: a new dictionary *)
Definition dict_new (src : loc) (kwargs : gmap string V) : M (heap V) loc :=
  do d <- read src;
  alloc (kwargs ∪ d).

(** [src.copy()] *)
Definition dict_copy (src : loc) : M (heap V) loc :=
  do d <- read src;
  alloc d.

(** [l[k] = v] *)
Definition dict_setitem (l : loc) (k : string) (v : V) : M (heap V) unit :=
  do d <- read l;
  write l (<[k := v]> d).

(** [l.update(src)] for a dictionary [src] held by reference *)
Definition dict_update (l src : loc) : M (heap V) unit :=
  do s <- read src;
  do d <- read l;
  write l (s ∪ d).

(** [l.update(kwargs)] for the keyword dictionary of a call *)
Definition dict_update_kw (l : loc) (kwargs : gmap string V)
  : M (heap V) unit :=
  do d <- read l;
  write l (kwargs ∪ d).

(** [l.get(k, dflt)] *)
Definition dict_get (l : loc) (k : string) (dflt : V) : M (heap V) V :=
  do d <- read l;
  ret (default dflt (d !! k)).

(** truth value of a dictionary: non-empty *)
Definition dict_bool (l : loc) : M (heap V) bool :=
  do d <- read l;
  ret (negb (Nat.eqb (size d) 0)).

End ops.

End Heap.

Import Heap.

(** ** BootstrapWidget and its subclasses *)

Module BootstrapWidget.

(** An instance as [build_attrs] sees it: [attrs] and [is_required] are
    instance attributes, [css_classes] and [extra_attrs] resolve to the
    class (the dictionary [extra_attrs] by reference). *)
Record t : Type :=
  Build { attrs : loc;
          is_required : bool;
          css_classes : list string;
          extra_attrs : loc }.

(** class attribute [BootstrapWidget.css_classes] *)
Definition css_classes_default : list string := ["form-control"].

(** class attribute [BootstrapWidget.extra_attrs], the address of [{}] *)
Definition extra_attrs_default : loc := 0.

(** [build_attrs(self, extra_attrs=None, **kwargs)]; returns the address
    of the dictionary it builds. *)
Definition build_attrs (self : t) (extra_attrs : option loc)
    (kwargs : gmap string string) : M (heap string) loc :=
  do attrs <- dict_new (BootstrapWidget.attrs self) kwargs;
  (if is_required self
   then dict_setitem attrs "aria-required" "true"
   else ret tt);;
  dict_update attrs (BootstrapWidget.extra_attrs self);;
  match extra_attrs with
  | Some extra_attrs =>
      do nonempty <- dict_bool extra_attrs;
      if nonempty then dict_update attrs extra_attrs else ret tt
  | None => ret tt
  end;;
  do cls <- dict_get attrs "class" "";
  let new_class := cls ++ " " ++ join " " (css_classes self) in
  dict_setitem attrs "class" (strip new_class);;
  ret attrs.

End BootstrapWidget.

(** The widget classes of the host framework that [widget_map] mentions;
    [Other] is any further class, by qualified name. *)
Module forms.

Inductive cls : Set :=
| TextInput | PasswordInput | Textarea
| DateInput | TimeInput | DateTimeInput
| Select | SelectMultiple | RadioSelect | CheckboxSelectMultiple
| NullBooleanSelect | EmailInput | NumberInput
| Other (qualname : string).

#[global] Instance cls_eq_dec : EqDecision cls.
Proof. solve_decision. Defined.

End forms.

(** The classes this module defines on top of [BootstrapWidget]. *)
Inductive styled : Set :=
| TextInput | AutofocusTextInput
| PasswordInput | AutofocusPasswordInput
| Textarea | AutofocusTextarea
| DateInput | TimeInput | DateTimeInput
| Select | SelectMultiple
| RadioSelect | CheckboxSelectMultiple
| NullBooleanSelect | NullBooleanRadioSelect
| EmailInput | NumberInput.

#[global] Instance styled_eq_dec : EqDecision styled.
Proof. solve_decision. Defined.

(** The base that is itself defined in this module, if any; the others
    derive from [BootstrapWidget] directly. *)
Definition base (c : styled) : option styled :=
  match c with
  | AutofocusTextInput | EmailInput | NumberInput => Some TextInput
  | AutofocusPasswordInput => Some PasswordInput
  | AutofocusTextarea => Some Textarea
  | NullBooleanRadioSelect => Some RadioSelect
  | _ => None
  end.

(** [css_classes] assigned in the class body *)
Definition own_css_classes (c : styled) : option (list string) :=
  match c with
  | DateInput => Some (BootstrapWidget.css_classes_default ++ ["date"])%list
  | TimeInput => Some (BootstrapWidget.css_classes_default ++ ["time"])%list
  | DateTimeInput => Some (BootstrapWidget.css_classes_default ++ ["datetime"])%list
  | RadioSelect | CheckboxSelectMultiple => Some []
  | _ => None
  end.

(** [extra_attrs] assigned in the class body: each [{'autofocus':
    'autofocus'}] display is a dictionary of its own. *)
Definition own_extra_attrs (c : styled) : option loc :=
  match c with
  | AutofocusTextInput => Some 1
  | AutofocusPasswordInput => Some 2
  | AutofocusTextarea => Some 3
  | _ => None
  end.

(** Attribute lookup along the bases, ending at [BootstrapWidget]. *)
Definition class_attr {A} (own : styled → option A) (dflt : A) (c : styled)
  : A :=
  match own c with
  | Some a => a
  | None =>
      match base c with
      | Some b => default dflt (own b)
      | None => dflt
      end
  end.

Definition css_classes_of (c : styled) : list string :=
  class_attr own_css_classes BootstrapWidget.css_classes_default c.

Definition extra_attrs_of (c : styled) : loc :=
  class_attr own_extra_attrs BootstrapWidget.extra_attrs_default c.

(** An instance of class [c] holding its attributes at [attrs]. *)
Definition instance (c : styled) (attrs : loc) (is_required : bool)
  : BootstrapWidget.t :=
  BootstrapWidget.Build attrs is_required (css_classes_of c) (extra_attrs_of c).

(** The attribute dictionaries that exist once the module is imported:
    the four class-level [extra_attrs]. *)
Definition module_attr_heap : heap string :=
  Heap.Build
    (<[0 := ∅]>
       (<[1 := {["autofocus" := "autofocus"]}]>
          (<[2 := {["autofocus" := "autofocus"]}]>
             (<[3 := {["autofocus" := "autofocus"]}]> ∅))))
    4.

(** ** TemplateWidget *)

(** The two stores of the program: attribute dictionaries (string
    values) and template context dictionaries (arbitrary values). *)
Record world : Type :=
  World { attr_heap : heap string; ctx_heap : heap value }.

Definition in_attrs {A} (m : M (heap string) A) : M world A :=
  λ w, let '(r, h) := m (attr_heap w) in (r, World h (ctx_heap w)).

Definition in_ctx {A} (m : M (heap value) A) : M world A :=
  λ w, let '(r, h) := m (ctx_heap w) in (r, World (attr_heap w) h).

(** [forms.Widget.__init__(self, attrs=None)] of the host framework:
    the instance keeps a copy of [attrs], or a new empty dictionary. *)
Definition Widget_init (attrs : option loc) : M (heap string) loc :=
  match attrs with
  | Some a => dict_copy a
  | None => alloc ∅
  end.

Module TemplateWidget.

(** class attribute [template_name = None] *)
Definition template_name_default : option string := None.

(** class attribute [extra_context = {}]: the address of the one
    dictionary the class body creates *)
Definition extra_context : loc := 0.

(** An instance: [template_name] when [__init__] assigned it, and
    [attrs]. The instance has no [extra_context] of its own, so
    [self.extra_context] is the class attribute. *)
Record t : Type :=
  Build { template_name : option string; attrs : loc }.

(** truth value of the [template_name] argument *)
Definition truthy (s : option string) : bool :=
  match s with
  | Some (String _ _) => true
  | _ => false
  end.

(** [__init__(self, template_name=None, attrs=None, **extra_context)] *)
Definition init (template_name : option string) (attrs : option loc)
    (extra_context : gmap string value) : M world t :=
  let own_template_name :=
    if truthy template_name then template_name else template_name_default in
  in_ctx (dict_update_kw TemplateWidget.extra_context extra_context);;
  do own_attrs <- in_attrs (Widget_init attrs);
  ret (Build own_template_name own_attrs).

(** the dictionary [self.extra_context] that [render] merges into the
    template parameters *)
Definition read_extra_context (self : t) : M world (gmap string value) :=
  in_ctx (read TemplateWidget.extra_context).

End TemplateWidget.

(** The stores once the module is imported. *)
Definition module_world : world :=
  World module_attr_heap (Heap.Build (<[0 := ∅]> ∅) 1).

(** ** ModelWidgets *)

(** A class object: of the host framework or of this module. *)
Inductive pyclass : Set :=
| Host (c : forms.cls)
| Styled (c : styled).

#[global] Instance pyclass_eq_dec : EqDecision pyclass.
Proof. solve_decision. Defined.

(** The model introspection interface of the host framework, as far as
    [ModelWidgets] uses it. *)
Module models.

(** a widget instance: [__class__] and its own attributes *)
Record Widget : Type :=
  { __class__ : pyclass; widget_attrs : gmap string string }.

Record FormField : Type := { widget : Widget }.

(** [formfield()] returns a form field, or [None] for a field that has
    no form counterpart. *)
Record Field : Type := { name : string; formfield : option FormField }.

(** [_meta]: [fields] lists the concrete fields in declaration order;
    [get_field] also knows the many-to-many fields.  It is rendered as
    a search by name; releases of the framework that resolve further
    names (a foreign key's column name, reverse relations) differ on
    which names fail, so what is proved of a failing lookup takes the
    failure itself as its premise. *)
Record Options : Type :=
  { fields : list Field; many_to_many : list Field }.

Definition get_field (meta : Options) (field_name : string) : result Field :=
  match List.find (λ f, String.eqb (name f) field_name)
                  (fields meta ++ many_to_many meta)%list with
  | Some f => Ok f
  | None => Raise FieldDoesNotExist
  end.

Record Model : Type := { _meta : Options }.

End models.

(** What a lookup can return: a widget instance, a class, or any other
    value a caller stored as an override. *)
Inductive obj : Type :=
| Instance (w : models.Widget)
| Class (c : pyclass)
| Plain (v : value).

(** *** Name resolution in the module *)

Inductive binding : Set := ModuleObject | FunctionObject | ClassObject.

(** the names [widgets.py] binds at module level *)
Definition module_globals : list (string * binding) :=
  [ ("forms", ModuleObject); ("flatatt", FunctionObject);
    ("Context", ClassObject); ("loader", ModuleObject);
    ("ugettext_lazy", FunctionObject); ("collections", ModuleObject);
    ("TemplateWidget", ClassObject); ("BootstrapWidget", ClassObject);
    ("TextInput", ClassObject); ("AutofocusTextInput", ClassObject);
    ("PasswordInput", ClassObject); ("AutofocusPasswordInput", ClassObject);
    ("Textarea", ClassObject); ("AutofocusTextarea", ClassObject);
    ("DateInput", ClassObject); ("TimeInput", ClassObject);
    ("DateTimeInput", ClassObject); ("Select", ClassObject);
    ("SelectMultiple", ClassObject); ("RadioSelect", ClassObject);
    ("CheckboxSelectMultiple", ClassObject); ("NullBooleanSelect", ClassObject);
    ("NullBooleanRadioSelect", ClassObject); ("EmailInput", ClassObject);
    ("NumberInput", ClassObject); ("ModelWidgets", ClassObject) ].

(** the built-in functions and types *)
Definition builtin_names : list string :=
  [ "abs"; "all"; "any"; "ascii"; "bin"; "bool"; "bytearray"; "bytes";
    "callable"; "chr"; "classmethod"; "compile"; "complex"; "delattr";
    "dict"; "dir"; "divmod"; "enumerate"; "eval"; "exec"; "filter";
    "float"; "format"; "frozenset"; "getattr"; "globals"; "hasattr";
    "hash"; "help"; "hex"; "id"; "input"; "int"; "isinstance";
    "issubclass"; "iter"; "len"; "list"; "locals"; "map"; "max";
    "memoryview"; "min"; "next"; "object"; "oct"; "open"; "ord"; "pow";
    "print"; "property"; "range"; "repr"; "reversed"; "round"; "set";
    "setattr"; "slice"; "sorted"; "staticmethod"; "str"; "sum"; "super";
    "tuple"; "type"; "vars"; "zip"; "KeyError"; "TypeError"; "NameError" ].

Fixpoint assoc {K V} `{EqDecision K} (l : list (K * V)) (k : K) : option V :=
  match l with
  | [] => None
  | (k', v) :: l' => if decide (k' = k) then Some v else assoc l' k
  end.

(** Reading a name that the function does not bind: module globals, then
    built-ins, else NameError. *)
Definition load_global (id : string) : result binding :=
  match assoc module_globals id with
  | Some b => Ok b
  | None =>
      if bool_decide (id ∈ builtin_names) then Ok ClassObject
      else Raise NameError
  end.

(** [for key in b]: modules, functions and classes are not iterable. *)
Definition iterate (b : binding) : result (list string) := Raise TypeError.

Module ModelWidgets.

(** the class-level table [widget_map] *)
Definition widget_map : list (pyclass * pyclass) :=
  [ (Host forms.TextInput, Styled TextInput);
    (Host forms.PasswordInput, Styled PasswordInput);
    (Host forms.Textarea, Styled Textarea);
    (Host forms.DateInput, Styled DateInput);
    (Host forms.TimeInput, Styled TimeInput);
    (Host forms.DateTimeInput, Styled DateTimeInput);
    (Host forms.Select, Styled Select);
    (Host forms.SelectMultiple, Styled SelectMultiple);
    (Host forms.RadioSelect, Styled RadioSelect);
    (Host forms.CheckboxSelectMultiple, Styled CheckboxSelectMultiple);
    (Host forms.NullBooleanSelect, Styled NullBooleanSelect);
    (Host forms.EmailInput, Styled EmailInput);
    (Host forms.NumberInput, Styled NumberInput) ].

(** The instance state; [overrides] keeps its keys in iteration order. *)
Record t : Type :=
  Build { model_class : models.Model; overrides : list (string * obj) }.

(** [__init__(self, model_class, overrides=None)] *)
Definition init (model_class : models.Model)
    (overrides : option (list (string * obj))) : t :=
  Build model_class
        (match overrides with
         | Some ((_ :: _) as d) => d
         | _ => []
         end).

(** [d[key]] on the overrides *)
Definition subscript (d : list (string * obj)) (key : string) : result obj :=
  match assoc d key with
  | Some v => Ok v
  | None => Raise KeyError
  end.

(** [original_widget = field.formfield().widget] *)
Definition formfield_widget (field : models.Field) : result models.Widget :=
  match models.formfield field with
  | Some form_field => Ok (models.widget form_field)
  | None => Raise AttributeError
  end.

(** [__getitem__(self, key)], in the state of the instance *)
Definition getitem (key : string) : M t obj :=
  do self <- get_state;
  if bool_decide (key ∈ (overrides self).*1) then
    lift (subscript (overrides self) key)
  else
    do field <- lift (models.get_field (models._meta (model_class self)) key);
    do original_widget <- lift (formfield_widget field);
    ret (match assoc widget_map (models.__class__ original_widget) with
         | Some c => Class c
         | None => Instance original_widget
         end).

(** The two loops of [__iter__], given the keys the first one runs
    over: the names yielded, in order. *)
Definition iter_loops (keys : list string) (self : t) : list string :=
  let '(seen, yielded) :=
    foldl (λ '(seen, yielded) key, ({[key]} ∪ seen, (yielded ++ [key])%list))
          ((∅ : gset string), []) keys in
  foldl (λ yielded field,
           if bool_decide (models.name field ∈ seen) then yielded
           else (yielded ++ [models.name field])%list)
        yielded (models.fields (models._meta (model_class self))).

(** [__iter__(self)], run to its end: the names yielded and how the
    generator finished.  The first loop runs over the bare name
    [overrides]. *)
Definition iter (self : t) : list string * result () :=
  match bind (load_global "overrides") iterate with
  | Ok keys => (iter_loops keys self, Ok ())
  | Raise e => ([], Raise e)
  end.

(** [__len__(self)] *)
Definition len (self : t) : nat :=
  let key_set : gset string := list_to_set (overrides self).*1 in
  size (list_to_set (models.name <$> models.fields
                       (models._meta (model_class self))) ∪ key_set).

(** Iteration as specified: the first loop runs over [self.overrides],
    the mapping that [__getitem__] and [__len__] read. *)
Definition iter_as_specified (self : t) : list string * result () :=
  (iter_loops (overrides self).*1 self, Ok ()).

End ModelWidgets.

(** ** Reading the result of [build_attrs] *)

(** The dictionary [build_attrs] returns, read from the heap it leaves. *)
Definition built (self : BootstrapWidget.t) (extra_attrs : option loc)
    (kwargs : gmap string string) (h : heap string)
  : option (gmap string string) :=
  match BootstrapWidget.build_attrs self extra_attrs kwargs h with
  | (Ok l, h') => Some (deref h' l)
  | (Raise _, _) => None
  end.

(** The dictionary passed at the call site, [{}] when there is none. *)
Definition call_site (extra_attrs : option loc) (h : heap string)
  : gmap string string :=
  match extra_attrs with
  | Some e => deref h e
  | None => ∅
  end.

(** What marks a required field. *)
Definition required_default (is_required : bool) : gmap string string :=
  if is_required then {["aria-required" := "true"]} else ∅.

(** The attributes supplied to [build_attrs], the source that wins
    first: call-site extras, class-level extras, the required-state
    default, keyword arguments, instance attributes. *)
Definition supplied (self : BootstrapWidget.t) (extra_attrs : option loc)
    (kwargs : gmap string string) (h : heap string) : gmap string string :=
  call_site extra_attrs h
  ∪ (deref h (BootstrapWidget.extra_attrs self)
     ∪ (required_default (BootstrapWidget.is_required self)
        ∪ (kwargs ∪ deref h (BootstrapWidget.attrs self)))).

(** A CSS class name: not empty, no white space. *)
Definition css_token (s : string) : bool :=
  match s with
  | EmptyString => false
  | _ => forallb (λ c, negb (is_space c)) (list_ascii_of_string s)
  end.

(** ** The rest of the module: rendering, constructors, containment *)

(** [forms.Widget.build_attrs(self, extra_attrs=None, **kwargs)] of the
    host framework, which [TemplateWidget] inherits: a new dictionary
    from the instance attributes and the keywords, updated with
    [extra_attrs] when that is given and not empty. *)
Definition Widget_build_attrs (self_attrs : loc) (extra_attrs : option loc)
    (kwargs : gmap string string) : M (heap string) loc :=
  do attrs <- dict_new self_attrs kwargs;
  match extra_attrs with
  | Some extra_attrs =>
      do nonempty <- dict_bool extra_attrs;
      if nonempty then dict_update attrs extra_attrs else ret tt
  | None => ret tt
  end;;
  ret attrs.

(** What a template parameter can be: a value, or the widget itself. *)
Inductive context_value : Type :=
| Value (v : value)
| WidgetRef (self : TemplateWidget.t).

(** [TemplateWidget.render(self, name, value, attrs=None)].  The
    template loader, [flatatt] and the template's own [render] belong to
    the host framework and are parameters; the template receives the
    dictionary [params]. *)
Definition TemplateWidget_render {Template Html : Type}
    (get_template : option string → result Template)
    (flatatt : gmap string string → string)
    (template_render : Template → gmap string context_value → result Html)
    (self : TemplateWidget.t) (name : string) (value : value)
    (attrs : option loc) : M world Html :=
  do template <- lift (get_template (TemplateWidget.template_name self));
  do built_attrs <-
    in_attrs (Widget_build_attrs (TemplateWidget.attrs self) attrs
                {["name" := name]});
  do input_attrs <- in_attrs (do d <- read built_attrs; ret (flatatt d));
  let params : gmap string context_value :=
    <["name" := Value (VStr name)]>
      (<["value" := Value value]>
         (<["attrs" := Value (VStr input_attrs)]>
            (<["widget" := WidgetRef self]> ∅))) in
  do extra_context <- TemplateWidget.read_extra_context self;
  let params := (Value <$> extra_context) ∪ params in
  lift (template_render template params).

(** [unknown_label or 'Unknown'] *)
Definition label_or (unknown_label : option string) (dflt : string) : string :=
  match unknown_label with
  | Some ((String _ _) as s) => s
  | _ => dflt
  end.

(** An instance of one of the two tri-state widgets: its attributes and
    its [choices], pairs of wire code and label. *)
Record NullBooleanWidget (Label : Type) : Type :=
  { nb_attrs : loc; nb_choices : list (string * Label) }.
Arguments nb_attrs {Label} n.
Arguments nb_choices {Label} n.

(** [NullBooleanSelect.__init__(self, attrs=None, unknown_label=None)];
    [ugettext_lazy] belongs to the host framework. *)
Definition NullBooleanSelect_init {Label : Type}
    (ugettext_lazy : string → Label) (attrs : option loc)
    (unknown_label : option string) : M (heap string) (NullBooleanWidget Label) :=
  do own_attrs <- Widget_init attrs;
  ret {| nb_attrs := own_attrs;
         nb_choices :=
           [ ("1", ugettext_lazy (label_or unknown_label "Unknown"));
             ("2", ugettext_lazy "Yes");
             ("3", ugettext_lazy "No") ] |}.

(** [NullBooleanRadioSelect.__init__(self, attrs=None,
    unknown_label=None)] *)
Definition NullBooleanRadioSelect_init {Label : Type}
    (ugettext_lazy : string → Label) (attrs : option loc)
    (unknown_label : option string) : M (heap string) (NullBooleanWidget Label) :=
  do own_attrs <- Widget_init attrs;
  ret {| nb_attrs := own_attrs;
         nb_choices :=
           [ ("1", ugettext_lazy (label_or unknown_label "Unknown"));
             ("2", ugettext_lazy "Yes");
             ("3", ugettext_lazy "No") ] |}.

(** [collections.Mapping.__contains__(self, key)], which [ModelWidgets]
    inherits: [self[key]] is tried and only KeyError means absent. *)
Definition Mapping_contains (key : string) : M ModelWidgets.t bool :=
  λ self,
    match ModelWidgets.getitem key self with
    | (Ok _, self') => (Ok true, self')
    | (Raise e, self') =>
        if decide (e = KeyError) then (Ok false, self') else (Raise e, self')
    end.

(** [collections.Mapping.get(self, key, default)], inherited likewise *)
Definition Mapping_get (key : string) (dflt : obj) : M ModelWidgets.t obj :=
  λ self,
    match ModelWidgets.getitem key self with
    | (Ok v, self') => (Ok v, self')
    | (Raise e, self') =>
        if decide (e = KeyError) then (Ok dflt, self') else (Raise e, self')
    end.

(** The names [__len__] counts. *)
Definition counted_names (self : ModelWidgets.t) : list string :=
  ((ModelWidgets.overrides self).*1
   ++ (models.name <$>
         models.fields (models._meta (ModelWidgets.model_class self))))%list.

(** A string that does not begin with white space: what [lstrip]
    leaves, and what [rstrip] keeps. *)
Definition clean_start (s : string) : Prop :=
  match s with
  | EmptyString => True
  | String c _ => is_space c = false
  end.

(** ** Sample inputs *)

(** a parent [render] that reports what it was given *)
Definition echo_render (name : string) (v : value) (attrs : ())
  : result (string * value) := Ok (name, v).

(** submitted data whose flag is the integer 1 *)
Definition submitted_one : gmap string value := {["flag" := VInt 1]}.

(** The module's dictionaries, and three of a caller: an instance's
    attributes without class, a dictionary carrying a class, and one
    that sets the accessibility marker itself. *)
Definition sample_heap : heap string :=
  Heap.Build
    (<[4 := {["id" := "id_when"]}]>
       (<[5 := {["class" := "foo"]}]>
          (<[6 := {["aria-required" := "false"]}]>
             (cells module_attr_heap))))
    7.

(** a loader that finds every named template and fails without a name *)
Definition sample_get_template (template_name : option string)
  : result string :=
  match template_name with
  | Some name => Ok name
  | None => Raise TypeError
  end.

(** attributes flattened as [key=value] pairs *)
Definition sample_flatatt (attrs : gmap string string) : string :=
  join " " ((λ kv, kv.1 ++ "=" ++ kv.2) <$> map_to_list attrs).

(** a template that reports its name and the parameters it was given *)
Definition sample_template_render (template : string)
    (params : gmap string context_value)
  : result (string * gmap string context_value) := Ok (template, params).

(** the module's stores and the caller's three dictionaries *)
Definition sample_world : world :=
  World sample_heap (Heap.Build (<[0 := ∅]> ∅) 1).

(** a model with three concrete fields; [id] has no form field *)
Definition sample_model : models.Model :=
  {| models._meta :=
       {| models.fields :=
            [ {| models.name := "id"; models.formfield := None |};
              {| models.name := "title";
                 models.formfield :=
                   Some {| models.widget :=
                             {| models.__class__ := Host forms.TextInput;
                                models.widget_attrs := ∅ |} |} |};
              {| models.name := "done";
                 models.formfield :=
                   Some {| models.widget :=
                             {| models.__class__ :=
                                  Host (forms.Other "CheckboxInput");
                                models.widget_attrs := ∅ |} |} |} ];
          models.many_to_many := [] |} |}.

(** [ModelWidgets(sample_model, {'title': Textarea})] *)
Definition sample_widgets : ModelWidgets.t :=
  ModelWidgets.init sample_model (Some [("title", Class (Styled Textarea))]).

(** * Properties *)

(** ** Heap primitives *)

Section heap_facts.
Context {V : Type}.
Implicit Types (h : heap V) (l : loc) (d : gmap string V).

Lemma deref_insert_eq (c : gmap loc (gmap string V)) n l d :
  deref (Heap.Build (<[l := d]> c) n) l = d.
Proof. unfold deref; simpl. by rewrite lookup_insert_eq. Qed.

End heap_facts.

Lemma build_attrs_run (self : BootstrapWidget.t) (extra_attrs : option loc)
    (kwargs : gmap string string) (h : heap string) :
  allocated h (BootstrapWidget.extra_attrs self) →
  (∀ e, extra_attrs = Some e → allocated h e) →
  ∃ h', BootstrapWidget.build_attrs self extra_attrs kwargs h = (Ok (next h), h')
        ∧ next h' = S (next h)
        ∧ (∀ l, l ≠ next h → deref h' l = deref h l)
        ∧ deref h' (next h) =
            <["class" :=
                strip (default "" (supplied self extra_attrs kwargs h !! "class")
                       ++ " " ++ join " " (BootstrapWidget.css_classes self))]>
              (supplied self extra_attrs kwargs h).
Proof.
  intros Hcls Hext.
  destruct self as [la req css lc]; simpl in *.
  assert (Hlc : lc ≠ next h) by (unfold allocated in Hcls; lia).
  assert (He : ∀ e, extra_attrs = Some e → e ≠ next h).
  { intros e ->. specialize (Hext e eq_refl). unfold allocated in Hext. lia. }
  unfold BootstrapWidget.build_attrs, supplied, required_default, call_site.
  unfold dict_new, dict_setitem, dict_update, dict_get, dict_bool,
    mbind', read, write, alloc, ret, deref.
  simpl.
  destruct req, extra_attrs as [e|]; simpl;
    try (specialize (He e eq_refl));
    rewrite ?lookup_insert_eq, ?lookup_insert_ne by done; simpl.
  all: try destruct (size (default ∅ (cells h !! e)) =? 0)%nat eqn:Hsz; simpl.
  all: rewrite ?lookup_insert_eq, ?lookup_insert_ne by done; simpl.
  all: eexists; split; [reflexivity|]; simpl.
  all: split; [reflexivity|].
  all: split; [intros l Hl; by rewrite ?lookup_insert_ne by done|].
  all: rewrite ?lookup_insert_eq; simpl.
  all: try (apply Nat.eqb_eq, map_size_empty_iff in Hsz; rewrite Hsz).
  all: by rewrite ?(left_id_L ∅ (∪)), <- ?insert_union_singleton_l.
Qed.

(** ** [strip] and [join] *)

#[local] Arguments String.append !_ _ /.

Lemma rstrip_app (a b : string) :
  rstrip b ≠ "" → rstrip (a ++ b) = a ++ rstrip b.
Proof.
  intros Hb. induction a as [|c a IH]; simpl; [done|].
  rewrite IH. destruct (a ++ rstrip b) eqn:E; [|done].
  destruct a; simpl in E; congruence.
Qed.

Lemma rstrip_fixed_app (a b : string) :
  rstrip b = b → b ≠ "" → rstrip (a ++ b) = a ++ b.
Proof. intros Hb Hne. rewrite rstrip_app; congruence. Qed.

Lemma rstrip_idemp (s : string) : rstrip (rstrip s) = rstrip s.
Proof.
  induction s as [|c s IH]; simpl; [done|].
  destruct (rstrip s) as [|c' r] eqn:E.
  - destruct (is_space c) eqn:Hc; simpl; by rewrite ?Hc.
  - simpl in *. by rewrite IH.
Qed.

Lemma lstrip_idemp (s : string) : lstrip (lstrip s) = lstrip s.
Proof.
  induction s as [|c s IH]; simpl; [done|].
  destruct (is_space c) eqn:Hc; simpl; by rewrite ?Hc.
Qed.

Lemma lstrip_clean_start (s : string) : clean_start (lstrip s).
Proof.
  induction s as [|c s IH]; simpl; [done|].
  destruct (is_space c) eqn:Hc; simpl; done.
Qed.

Lemma clean_start_lstrip (s : string) : clean_start s → lstrip s = s.
Proof. destruct s; simpl; [done|]. by intros ->. Qed.

Lemma rstrip_clean_start (s : string) : clean_start s → clean_start (rstrip s).
Proof.
  destruct s as [|c s]; simpl; [done|]. intros Hc.
  destruct (rstrip s); simpl; by rewrite ?Hc.
Qed.

Lemma strip_clean_start (s : string) : clean_start (strip s).
Proof. apply rstrip_clean_start, lstrip_clean_start. Qed.

Lemma strip_idemp (s : string) : strip (strip s) = strip s.
Proof.
  unfold strip at 1.
  rewrite (clean_start_lstrip (strip s)) by apply strip_clean_start.
  apply rstrip_idemp.
Qed.

Lemma strip_fixed_clean_start (s : string) : strip s = s → clean_start s.
Proof. intros <-. apply strip_clean_start. Qed.

Lemma clean_start_app (a b : string) :
  a ≠ "" → clean_start a → clean_start (a ++ b).
Proof. destruct a; simpl; done. Qed.

Lemma css_token_spec (s : string) :
  css_token s → s ≠ "" ∧ clean_start s ∧ rstrip s = s.
Proof.
  intros Ht. split; [by destruct s|]. split.
  - destruct s as [|c s]; simpl in *; [done|].
    apply andb_prop_elim in Ht as [Hc _]. by destruct (is_space c).
  - assert (Hall : forallb (λ c, negb (is_space c)) (list_ascii_of_string s))
      by (by destruct s).
    clear Ht. induction s as [|c s IH]; simpl in *; [done|].
    apply andb_prop_elim in Hall as [Hc Hs].
    rewrite (IH Hs). destruct (is_space c); [done|]. by destruct s.
Qed.

(** The classes of a non-empty list of tokens, joined by single
    spaces, have no white space to strip at either end. *)
Lemma join_tokens (css : list string) :
  css ≠ [] → Forall css_token css →
  join " " css ≠ "" ∧ clean_start (join " " css)
  ∧ rstrip (join " " css) = join " " css.
Proof.
  intros Hne Hall. induction Hall as [|x css Hx Hall IH]; [done|].
  destruct (css_token_spec x Hx) as (Hx1 & Hx2 & Hx3).
  destruct css as [|y css]; [done|].
  destruct IH as (IH1 & IH2 & IH3); [done|].
  change (join " " (x :: y :: css)) with (x ++ " " ++ join " " (y :: css)).
  split; [by destruct x|]. split; [by apply clean_start_app|].
  apply rstrip_fixed_app; [|done].
  apply (rstrip_fixed_app " "); done.
Qed.

Lemma strip_class_join (c : string) (css : list string) :
  css ≠ [] → Forall css_token css → c ≠ "" → strip c = c →
  strip (c ++ " " ++ join " " css) = c ++ " " ++ join " " css.
Proof.
  intros Hne Hall Hc Hfix.
  destruct (join_tokens css Hne Hall) as (J1 & J2 & J3).
  unfold strip. rewrite clean_start_lstrip.
  - apply rstrip_fixed_app; [|done]. by apply (rstrip_fixed_app " ").
  - apply clean_start_app; [done|]. by apply strip_fixed_clean_start.
Qed.

Lemma strip_join_only (css : list string) :
  css ≠ [] → Forall css_token css →
  strip ("" ++ " " ++ join " " css) = join " " css.
Proof.
  intros Hne Hall.
  destruct (join_tokens css Hne Hall) as (J1 & J2 & J3).
  unfold strip. simpl. by rewrite clean_start_lstrip.
Qed.

(** Every class of the module lists CSS tokens only. *)
Lemma css_classes_of_tokens (c : styled) : Forall css_token (css_classes_of c).
Proof. destruct c; vm_compute; repeat constructor. Qed.

(** ** The tri-state control *)

Lemma key_eqb_str (s t : string) :
  key_eqb (VStr s) (VStr t) = bool_decide (s = t).
Proof.
  simpl. destruct (String.eqb_spec s t).
  - by rewrite bool_decide_eq_true_2.
  - by rewrite bool_decide_eq_false_2.
Qed.

Lemma key_eqb_bool_int (b : bool) (n : Z) :
  key_eqb (VBool b) (VInt n) = bool_decide (n = if b then 1%Z else 0%Z).
Proof. simpl. apply bool_decide_ext. split; [by intros [= ->]|by intros ->]. Qed.

(** C1 (amended). For every hashable value, render looks the value up in
    the table {True:"2", False:"3", "2":"2", "3":"3"} and hands the code
    found to the parent render: "2" for True, the integer 1 and "2", "3"
    for False, the integer 0 and "3", and "1" for every other hashable
    value, None included.  An unhashable value makes the lookup raise
    TypeError, which render lets through. *)
Theorem render_wire_code {Attrs Html : Type}
    (super_render : string → value → Attrs → result Html)
    (name : string) (v : value) (attrs : Attrs) :
  (v ∈ [VBool true; VInt 1; VStr "2"] →
     NullBooleanRadioSelect.render super_render name v attrs
     = super_render name (VStr "2") attrs)
  ∧ (v ∈ [VBool false; VInt 0; VStr "3"] →
     NullBooleanRadioSelect.render super_render name v attrs
     = super_render name (VStr "3") attrs)
  ∧ (hashable v = true →
     v ∉ [VBool true; VInt 1; VStr "2"; VBool false; VInt 0; VStr "3"] →
     NullBooleanRadioSelect.render super_render name v attrs
     = super_render name (VStr "1") attrs)
  ∧ (v = VNone →
     NullBooleanRadioSelect.render super_render name v attrs
     = super_render name (VStr "1") attrs)
  ∧ (hashable v = false →
     NullBooleanRadioSelect.render super_render name v attrs = Raise TypeError).
Proof.
  unfold NullBooleanRadioSelect.render, getitem,
    NullBooleanRadioSelect.render_codes.
  repeat split.
  - intros Hv. set_unfold. by destruct Hv as [->|[->|[->|[]]]].
  - intros Hv. set_unfold. by destruct Hv as [->|[->|[->|[]]]].
  - intros Hh Hv. rewrite Hh. cbn [find_key].
    destruct v as [|b|n|s|l]; try done.
    + exfalso. apply Hv. destruct b; set_solver.
    + rewrite !key_eqb_bool_int. repeat case_bool_decide; subst; try done;
        exfalso; apply Hv; set_solver.
    + change (key_eqb (VBool true) (VStr s)) with false.
      change (key_eqb (VBool false) (VStr s)) with false.
      rewrite !key_eqb_str. repeat case_bool_decide; subst; try done;
        exfalso; apply Hv; set_solver.
  - by intros ->.
  - intros Hh. by rewrite Hh.
Qed.

(** C2 (amended). value_from_datadict returns True when the submitted
    value is "2", True, "True" or the integer 1, False when it is "3",
    "False", False or the integer 0, and None for every other hashable
    value, the wire code "1" and a missing key included; an unhashable
    submitted value raises TypeError. *)
Theorem value_from_datadict_cases {Files : Type}
    (data : gmap string value) (files : Files) (name : string) (v : value) :
  default VNone (data !! name) = v →
  (v ∈ [VStr "2"; VBool true; VStr "True"; VInt 1] →
     NullBooleanRadioSelect.value_from_datadict data files name
     = Ok (VBool true))
  ∧ (v ∈ [VStr "3"; VStr "False"; VBool false; VInt 0] →
     NullBooleanRadioSelect.value_from_datadict data files name
     = Ok (VBool false))
  ∧ (hashable v = true →
     v ∉ [VStr "2"; VBool true; VStr "True"; VInt 1;
          VStr "3"; VStr "False"; VBool false; VInt 0] →
     NullBooleanRadioSelect.value_from_datadict data files name = Ok VNone)
  ∧ (v = VStr "1" ∨ data !! name = None →
     NullBooleanRadioSelect.value_from_datadict data files name = Ok VNone)
  ∧ (hashable v = false →
     NullBooleanRadioSelect.value_from_datadict data files name
     = Raise TypeError).
Proof.
  intros Hdata.
  unfold NullBooleanRadioSelect.value_from_datadict, get,
    NullBooleanRadioSelect.parsed_values. rewrite Hdata.
  repeat split.
  - intros Hv. set_unfold. by destruct Hv as [->|[->|[->|[->|[]]]]].
  - intros Hv. set_unfold. by destruct Hv as [->|[->|[->|[->|[]]]]].
  - intros Hh Hv. rewrite Hh. cbn [find_key].
    destruct v as [|b|n|s|l]; try done.
    + exfalso. apply Hv. destruct b; set_solver.
    + change (key_eqb (VStr ?x) (VInt n)) with false.
      rewrite !key_eqb_bool_int. cbn [key_eqb].
      repeat case_bool_decide; subst; try done; exfalso; apply Hv; set_solver.
    + change (key_eqb (VBool true) (VStr s)) with false.
      change (key_eqb (VBool false) (VStr s)) with false.
      rewrite !key_eqb_str. repeat case_bool_decide; subst; try done;
        exfalso; apply Hv; set_solver.
  - intros [->|Hnone]; [done|]. rewrite Hnone in Hdata. by subst v.
  - intros Hh. by rewrite Hh.
Qed.


(** C1 at the integer 1, which compares equal to True. *)
Lemma render_wire_code_witness :
  NullBooleanRadioSelect.render echo_render "flag" (VInt 1) ()
  = Ok ("flag", VStr "2").
Proof.
  apply (proj1 (render_wire_code echo_render "flag" (VInt 1) ())).
  apply list_elem_of_further, list_elem_of_here.
Defined.

(** An empty list is not a key of the table, and is not rendered as "1":
    the lookup raises TypeError. *)
Lemma render_unhashable_counterexample :
  find_key NullBooleanRadioSelect.render_codes (VList []) = None
  ∧ NullBooleanRadioSelect.render echo_render "flag" (VList []) ()
    = Raise TypeError
  ∧ NullBooleanRadioSelect.render echo_render "flag" (VList []) ()
    ≠ echo_render "flag" (VStr "1") ().
Proof. repeat split; done. Qed.

(** C2 at a submitted "True". *)
Lemma value_from_datadict_cases_witness :
  NullBooleanRadioSelect.value_from_datadict
    ({["flag" := VStr "True"]} : gmap string value) () "flag"
  = Ok (VBool true).
Proof.
  refine (proj1 (value_from_datadict_cases
                   {["flag" := VStr "True"]} () "flag" (VStr "True") _) _).
  - vm_compute. reflexivity.
  - apply list_elem_of_further, list_elem_of_further, list_elem_of_here.
Defined.

(** The integer 1 is none of "2", True, "True", "3", "False", False, yet
    a submitted 1 is parsed as True, not None. *)
Lemma value_from_datadict_int_counterexample :
  (VInt 1 ∉ [VStr "2"; VBool true; VStr "True";
             VStr "3"; VStr "False"; VBool false])
  ∧ NullBooleanRadioSelect.value_from_datadict submitted_one () "flag"
    = Ok (VBool true)
  ∧ NullBooleanRadioSelect.value_from_datadict submitted_one () "flag"
    ≠ Ok VNone.
Proof.
  split; [|split; [reflexivity|discriminate]].
  intros H.
  repeat (apply elem_of_cons in H as [H|H]; [discriminate|]).
  by apply elem_of_nil in H.
Qed.

(** ** [build_attrs] *)

(** [d.update(s)] read key by key: the entries of [s] win. *)
Lemma lookup_union_first {V} (m1 m2 : gmap string V) (k : string) :
  (m1 ∪ m2) !! k = match m1 !! k with Some v => Some v | None => m2 !! k end.
Proof. rewrite lookup_union. by destruct (m1 !! k), (m2 !! k). Qed.

Lemma built_run (self : BootstrapWidget.t) (extra_attrs : option loc)
    (kwargs : gmap string string) (h : heap string) :
  allocated h (BootstrapWidget.extra_attrs self) →
  from_option (allocated h) True extra_attrs →
  built self extra_attrs kwargs h =
    Some (<["class" :=
              strip (default "" (supplied self extra_attrs kwargs h !! "class")
                     ++ " " ++ join " " (BootstrapWidget.css_classes self))]>
            (supplied self extra_attrs kwargs h)).
Proof.
  intros Hcls Hext.
  destruct (build_attrs_run self extra_attrs kwargs h Hcls)
    as (h' & Hrun & _ & _ & Hd).
  { by intros e ->. }
  unfold built. by rewrite Hrun, Hd.
Qed.

(** C5. With a non-empty list of CSS class names, a class attribute c
    supplied to build_attrs (such as "foo": not empty, nothing to strip)
    comes out as c followed by the listed classes in order, separated by
    single spaces; with no class attribute supplied, the result is the
    listed classes separated by single spaces. Either way the class
    value has no leading or trailing white space. *)
Theorem build_attrs_class_value (self : BootstrapWidget.t)
    (extra_attrs : option loc) (kwargs : gmap string string)
    (h : heap string) (c : string) :
  allocated h (BootstrapWidget.extra_attrs self) →
  from_option (allocated h) True extra_attrs →
  BootstrapWidget.css_classes self ≠ [] →
  Forall css_token (BootstrapWidget.css_classes self) →
  c ≠ "" → strip c = c →
  ∃ d, built self extra_attrs kwargs h = Some d
       ∧ (supplied self extra_attrs kwargs h !! "class" = Some c →
          d !! "class"
          = Some (c ++ " " ++ join " " (BootstrapWidget.css_classes self)))
       ∧ (supplied self extra_attrs kwargs h !! "class" = None →
          d !! "class" = Some (join " " (BootstrapWidget.css_classes self)))
       ∧ (∀ v, d !! "class" = Some v → strip v = v).
Proof.
  intros Hcls Hext Hne Htok Hc Hfix.
  eexists. split; [by apply built_run|].
  rewrite lookup_insert_eq. repeat split.
  - intros ->. simpl. f_equal. by apply strip_class_join.
  - intros ->. f_equal. by apply strip_join_only.
  - intros v [= <-]. apply strip_idemp.
Qed.

(** C5 on a DateInput whose attributes carry the class "foo". *)
Lemma build_attrs_class_value_witness :
  ∃ d, built (instance DateInput 5 false) None {["name" := "when"]} sample_heap
       = Some d
       ∧ d !! "class" = Some "foo form-control date".
Proof.
  destruct (build_attrs_class_value
              (instance DateInput 5 false) None {["name" := "when"]}
              sample_heap "foo")
    as (d & Hd & Hfoo & _).
  - vm_compute. lia.
  - exact I.
  - discriminate.
  - apply css_classes_of_tokens.
  - discriminate.
  - reflexivity.
  - exists d. split; [exact Hd|]. apply Hfoo. vm_compute. reflexivity.
Defined.

(** C6 (amended). For every attribute key other than "class", the
    mapping build_attrs returns holds the value of the first source that
    has the key, in the order call-site extras, class-level extras, the
    required-state default, keyword arguments, instance attributes; so a
    key other than "class" in the call-site extras keeps exactly the
    call-site value. The key "class" holds the value chosen in that
    order (or the empty string) followed by a space and the CSS classes,
    stripped. *)
Theorem build_attrs_precedence (self : BootstrapWidget.t)
    (extra_attrs : option loc) (kwargs : gmap string string)
    (h : heap string) (k : string) :
  allocated h (BootstrapWidget.extra_attrs self) →
  from_option (allocated h) True extra_attrs →
  ∃ d, built self extra_attrs kwargs h = Some d
       ∧ (k ≠ "class" →
          d !! k =
            match call_site extra_attrs h !! k with
            | Some v => Some v
            | None =>
                match deref h (BootstrapWidget.extra_attrs self) !! k with
                | Some v => Some v
                | None =>
                    match required_default (BootstrapWidget.is_required self)
                          !! k with
                    | Some v => Some v
                    | None =>
                        match kwargs !! k with
                        | Some v => Some v
                        | None => deref h (BootstrapWidget.attrs self) !! k
                        end
                    end
                end
            end)
       ∧ (k ≠ "class" →
          ∀ v, call_site extra_attrs h !! k = Some v → d !! k = Some v)
       ∧ d !! "class" =
           Some (strip (default "" (supplied self extra_attrs kwargs h
                                    !! "class")
                        ++ " " ++ join " " (BootstrapWidget.css_classes self))).
Proof.
  intros Hcls Hext.
  eexists. split; [by apply built_run|].
  repeat split.
  - intros Hk. rewrite lookup_insert_ne by done.
    unfold supplied. by rewrite !lookup_union_first.
  - intros Hk v Hv. rewrite lookup_insert_ne by done.
    unfold supplied. by rewrite lookup_union_first, Hv.
  - by rewrite lookup_insert_eq.
Qed.

(** C6 on a call that passes its own "aria-required". *)
Lemma build_attrs_precedence_witness :
  ∃ d, built (instance TextInput 4 true) (Some 6) ∅ sample_heap = Some d
       ∧ d !! "aria-required" = Some "false".
Proof.
  destruct (build_attrs_precedence
              (instance TextInput 4 true) (Some 6) ∅ sample_heap
              "aria-required")
    as (d & Hd & _ & Hcall & _).
  - vm_compute. lia.
  - vm_compute. lia.
  - exists d. split; [exact Hd|]. apply Hcall; [discriminate|].
    vm_compute. reflexivity.
Defined.

(** A call-site class "foo" on a TextInput does not come out as "foo":
    the CSS classes are appended to it. *)
Lemma build_attrs_call_site_class_counterexample :
  call_site (Some 5) sample_heap !! "class" = Some "foo"
  ∧ (built (instance TextInput 4 false) (Some 5) ∅ sample_heap
     ≫= lookup "class") = Some "foo form-control".
Proof. split; vm_compute; reflexivity. Qed.

(** C9 (amended). For a required widget, the mapping build_attrs
    returns holds "aria-required" with value "true", provided neither
    the class-level nor the call-site extra attributes have an
    "aria-required" entry of their own. *)
Theorem build_attrs_required (self : BootstrapWidget.t)
    (extra_attrs : option loc) (kwargs : gmap string string)
    (h : heap string) :
  allocated h (BootstrapWidget.extra_attrs self) →
  from_option (allocated h) True extra_attrs →
  BootstrapWidget.is_required self = true →
  deref h (BootstrapWidget.extra_attrs self) !! "aria-required" = None →
  call_site extra_attrs h !! "aria-required" = None →
  ∃ d, built self extra_attrs kwargs h = Some d
       ∧ d !! "aria-required" = Some "true".
Proof.
  intros Hcls Hext Hreq Hclass Hcall.
  eexists. split; [by apply built_run|].
  rewrite lookup_insert_ne by done.
  unfold supplied. rewrite Hreq. simpl.
  by rewrite !lookup_union_first, Hcall, Hclass, lookup_singleton_eq.
Qed.

(** C9 on a required TextInput called with a class dictionary. *)
Lemma build_attrs_required_witness :
  ∃ d, built (instance TextInput 4 true) (Some 5) ∅ sample_heap = Some d
       ∧ d !! "aria-required" = Some "true".
Proof.
  apply (build_attrs_required (instance TextInput 4 true) (Some 5) ∅
           sample_heap).
  - vm_compute. lia.
  - vm_compute. lia.
  - reflexivity.
  - vm_compute. reflexivity.
  - vm_compute. reflexivity.
Defined.

(** A required TextInput called with extra attributes that set
    "aria-required" to "false" comes out with "false". *)
Lemma build_attrs_required_counterexample :
  BootstrapWidget.is_required (instance TextInput 4 true) = true
  ∧ (built (instance TextInput 4 true) (Some 6) ∅ sample_heap
     ≫= lookup "aria-required") = Some "false".
Proof. split; vm_compute; reflexivity. Qed.

(** C10. build_attrs returns the address of a dictionary that did not
    exist before the call, and every dictionary that did exist still has
    its contents: the widget's stored attrs, the caller's extra_attrs
    and the class-level extra_attrs among them. *)
Theorem build_attrs_frame (self : BootstrapWidget.t)
    (extra_attrs : option loc) (kwargs : gmap string string)
    (h : heap string) :
  allocated h (BootstrapWidget.attrs self) →
  allocated h (BootstrapWidget.extra_attrs self) →
  from_option (allocated h) True extra_attrs →
  ∃ r h', BootstrapWidget.build_attrs self extra_attrs kwargs h = (Ok r, h')
          ∧ ¬ allocated h r
          ∧ allocated h' r
          ∧ r ≠ BootstrapWidget.attrs self
          ∧ Some r ≠ extra_attrs
          ∧ (∀ l, allocated h l → deref h' l = deref h l)
          ∧ deref h' (BootstrapWidget.attrs self)
            = deref h (BootstrapWidget.attrs self)
          ∧ call_site extra_attrs h' = call_site extra_attrs h
          ∧ deref h' (BootstrapWidget.extra_attrs self)
            = deref h (BootstrapWidget.extra_attrs self).
Proof.
  intros Hattrs Hcls Hext.
  destruct (build_attrs_run self extra_attrs kwargs h Hcls)
    as (h' & Hrun & Hnext & Hframe & _).
  { by intros e ->. }
  assert (Hold : ∀ l, allocated h l → deref h' l = deref h l).
  { intros l Hl. apply Hframe. unfold allocated in Hl. lia. }
  unfold allocated in *.
  exists (next h), h'. repeat split; try done; try lia.
  - intros <-. simpl in Hext. lia.
  - by apply Hold.
  - destruct extra_attrs as [e|]; simpl in *; [by apply Hold|done].
  - by apply Hold.
Qed.

(** C10 on a call that passes the widget's own attrs as extra_attrs. *)
Lemma build_attrs_frame_witness :
  ∃ r h', BootstrapWidget.build_attrs
            (instance AutofocusTextInput 5 true) (Some 5) ∅ sample_heap
          = (Ok r, h')
          ∧ deref h' 5 = deref sample_heap 5
          ∧ deref h' 1 = deref sample_heap 1.
Proof.
  destruct (build_attrs_frame
              (instance AutofocusTextInput 5 true) (Some 5) ∅ sample_heap)
    as (r & h' & Hrun & _ & _ & _ & _ & _ & Hattrs & _ & Hclass).
  - vm_compute. lia.
  - vm_compute. lia.
  - vm_compute. lia.
  - exists r, h'. split; [exact Hrun|]. split; [exact Hattrs|exact Hclass].
Defined.

(** ** TemplateWidget *)

(** Constructing an instance merges its keyword arguments into the
    class-level dictionary. *)
Lemma TemplateWidget_init_updates_class (template_name : option string)
    (attrs : option loc) (extra_context : gmap string value) (w : world) :
  ∃ self w', TemplateWidget.init template_name attrs extra_context w
             = (Ok self, w')
             ∧ deref (ctx_heap w') TemplateWidget.extra_context
               = extra_context
                 ∪ deref (ctx_heap w) TemplateWidget.extra_context.
Proof.
  unfold TemplateWidget.init, in_ctx, in_attrs, Widget_init, dict_update_kw,
    dict_copy, mbind', read, write, alloc, ret.
  destruct attrs; simpl; do 2 eexists; (split; [reflexivity|]); simpl;
    apply deref_insert_eq.
Qed.

(** C4. Constructing a TemplateWidget with the keyword argument
    title="Hello" changes the class-level dictionary
    TemplateWidget.extra_context from empty to one holding "title", and
    an instance constructed afterwards without keyword arguments reads
    that entry through self.extra_context. *)
Theorem TemplateWidget_init_mutates_class_dict :
  deref (ctx_heap module_world) TemplateWidget.extra_context = ∅
  ∧ ∃ first w1 second w2 ctx,
      TemplateWidget.init (Some "a.html") None {["title" := VStr "Hello"]}
        module_world = (Ok first, w1)
      ∧ deref (ctx_heap w1) TemplateWidget.extra_context !! "title"
        = Some (VStr "Hello")
      ∧ TemplateWidget.init (Some "b.html") None ∅ w1 = (Ok second, w2)
      ∧ TemplateWidget.read_extra_context second w2 = (Ok ctx, w2)
      ∧ ctx !! "title" = Some (VStr "Hello").
Proof.
  split; [vm_compute; reflexivity|].
  do 5 eexists. repeat split; vm_compute; reflexivity.
Qed.

(** ** ModelWidgets *)


Lemma assoc_keys {V} (l : list (string * V)) (k : string) :
  k ∈ l.*1 → is_Some (assoc l k).
Proof.
  induction l as [|[k' v'] l IH]; simpl; [by intros ?%elem_of_nil|].
  intros [->|Hk]%elem_of_cons; case_decide; eauto; done.
Qed.



(** The table sends each listed host class to the class of the same
    name in this module, and has no other key. *)
Lemma widget_map_entries (c : pyclass) :
  assoc ModelWidgets.widget_map c =
    match c with
    | Host forms.TextInput => Some (Styled TextInput)
    | Host forms.PasswordInput => Some (Styled PasswordInput)
    | Host forms.Textarea => Some (Styled Textarea)
    | Host forms.DateInput => Some (Styled DateInput)
    | Host forms.TimeInput => Some (Styled TimeInput)
    | Host forms.DateTimeInput => Some (Styled DateTimeInput)
    | Host forms.Select => Some (Styled Select)
    | Host forms.SelectMultiple => Some (Styled SelectMultiple)
    | Host forms.RadioSelect => Some (Styled RadioSelect)
    | Host forms.CheckboxSelectMultiple => Some (Styled CheckboxSelectMultiple)
    | Host forms.NullBooleanSelect => Some (Styled NullBooleanSelect)
    | Host forms.EmailInput => Some (Styled EmailInput)
    | Host forms.NumberInput => Some (Styled NumberInput)
    | Host (forms.Other _) | Styled _ => None
    end.
Proof. by destruct c as [[]|[]]. Qed.

(** C8. For a name that is not an override key and that the model's
    get_field does not find, lookup raises the error get_field raised,
    the model's FieldDoesNotExist, unhandled, and leaves the instance as
    it was. *)
Theorem getitem_unknown_name (self : ModelWidgets.t) (key : string)
    (e : exn) :
  key ∉ (ModelWidgets.overrides self).*1 →
  models.get_field (models._meta (ModelWidgets.model_class self)) key
  = Raise e →
  ModelWidgets.getitem key self = (Raise e, self).
Proof.
  intros Hover Hfield.
  unfold ModelWidgets.getitem, mbind', get_state, lift.
  rewrite bool_decide_eq_false_2 by done.
  by rewrite Hfield.
Qed.

(** C8 on the sample, for a name the model does not have. *)
Lemma getitem_unknown_name_witness :
  ModelWidgets.getitem "owner" sample_widgets
  = (Raise FieldDoesNotExist, sample_widgets).
Proof.
  apply (getitem_unknown_name sample_widgets "owner" FieldDoesNotExist).
  - intros H. repeat (apply elem_of_cons in H as [H|H]; [discriminate|]).
    by apply elem_of_nil in H.
  - reflexivity.
Defined.

Lemma first_loop (keys : list string) (seen : gset string)
    (yielded : list string) :
  foldl (λ '(seen, yielded) key, ({[key]} ∪ seen, (yielded ++ [key])%list))
        (seen, yielded) keys
  = (list_to_set keys ∪ seen, (yielded ++ keys)%list).
Proof.
  revert seen yielded.
  induction keys as [|k keys IH]; intros seen yielded; simpl.
  - by rewrite (left_id_L ∅ (∪)), app_nil_r.
  - rewrite IH, <- app_assoc. f_equal.
    rewrite (assoc_L (∪)). f_equal. apply (comm_L (∪)).
Qed.

Lemma second_loop (seen : gset string) (fields : list models.Field)
    (yielded : list string) :
  foldl (λ yielded field,
           if bool_decide (models.name field ∈ seen) then yielded
           else (yielded ++ [models.name field])%list)
        yielded fields
  = (yielded ++ filter (λ n, n ∉ seen) (models.name <$> fields))%list.
Proof.
  revert yielded.
  induction fields as [|f fields IH]; intros yielded; simpl.
  - by rewrite app_nil_r.
  - rewrite IH, filter_cons. case_bool_decide as Hseen; case_decide as Hin;
      try done. by rewrite <- app_assoc.
Qed.

(** The two loops: the given keys, then the field names that are none
    of them, in declaration order. *)
Lemma iter_loops_yield (keys : list string) (self : ModelWidgets.t) :
  ModelWidgets.iter_loops keys self =
    (keys ++ filter (λ n, n ∉ keys)
               (models.name <$>
                  models.fields
                    (models._meta (ModelWidgets.model_class self))))%list.
Proof.
  unfold ModelWidgets.iter_loops.
  rewrite first_loop, second_loop. simpl. f_equal.
  apply list_filter_iff. intros n.
  by rewrite (right_id_L ∅ (∪)), elem_of_list_to_set.
Qed.

(** Iteration as specified yields every override key first, then the
    remaining field names in declaration order, and no name twice when
    the model declares none twice. *)
Lemma iter_as_specified_yield (self : ModelWidgets.t) :
  NoDup (ModelWidgets.overrides self).*1 →
  NoDup (models.name <$>
           models.fields (models._meta (ModelWidgets.model_class self))) →
  ∃ rest,
    ModelWidgets.iter_as_specified self
    = (((ModelWidgets.overrides self).*1 ++ rest)%list, Ok ())
    ∧ rest = filter (λ n, n ∉ (ModelWidgets.overrides self).*1)
               (models.name <$>
                  models.fields
                    (models._meta (ModelWidgets.model_class self)))
    ∧ NoDup ((ModelWidgets.overrides self).*1 ++ rest)%list.
Proof.
  intros Hkeys Hnames. eexists. split; [|split; [reflexivity|]].
  - unfold ModelWidgets.iter_as_specified. by rewrite iter_loops_yield.
  - apply NoDup_app. split; [done|]. split.
    + intros n Hn Hrest. by apply list_elem_of_filter in Hrest as [? _].
    + by apply NoDup_filter.
Qed.

(** C3. Iterating any ModelWidgets instance yields nothing: the first
    loop reads the bare name overrides, which neither the module nor the
    built-ins bind, and the generator ends in NameError. *)
Theorem iter_raises_NameError (self : ModelWidgets.t) :
  ModelWidgets.iter self = ([], Raise NameError).
Proof. reflexivity. Qed.

(** On the sample, the override wins over the model's own field. *)
Lemma getitem_sample_override :
  ModelWidgets.getitem "title" sample_widgets
  = (Ok (Class (Styled Textarea)), sample_widgets).
Proof. reflexivity. Qed.


(** On the sample, the code and the iteration as specified part ways. *)
Lemma iter_sample :
  ModelWidgets.iter sample_widgets = ([], Raise NameError)
  ∧ ModelWidgets.iter_as_specified sample_widgets
    = (["title"; "id"; "done"], Ok ()).
Proof. split; vm_compute; reflexivity. Qed.

(** * Further properties *)

(** ** The tri-state control: codes, choices and round trips *)

Lemma find_key_value (d : dict) (k v : value) :
  find_key d k = Some v → v ∈ d.*2.
Proof.
  induction d as [|[k' v'] d IH]; simpl; [done|].
  destruct (key_eqb k' k); [intros [= ->]; left|right; auto].
Qed.

Lemma render_hashable {Attrs Html : Type}
    (super_render : string → value → Attrs → result Html)
    (name : string) (v : value) (attrs : Attrs) :
  hashable v = true →
  NullBooleanRadioSelect.render super_render name v attrs
  = super_render name
      (default (VStr "1") (find_key NullBooleanRadioSelect.render_codes v))
      attrs.
Proof.
  intros Hv. unfold NullBooleanRadioSelect.render, getitem. rewrite Hv.
  by destruct (find_key _ v).
Qed.

Lemma value_from_datadict_hashable {Files : Type}
    (data : gmap string value) (files : Files) (name : string) :
  hashable (default VNone (data !! name)) = true →
  NullBooleanRadioSelect.value_from_datadict data files name
  = Ok (default VNone
          (find_key NullBooleanRadioSelect.parsed_values
             (default VNone (data !! name)))).
Proof.
  intros Hv. unfold NullBooleanRadioSelect.value_from_datadict, get.
  by rewrite Hv.
Qed.

(** X1. The wire code that render hands to the parent is always one of the
    codes the constructor offers as choices, whatever the hashable value
    and whatever the label of the unknown choice. *)
Theorem render_selects_offered_choice {Label Attrs Html : Type}
    (ugettext_lazy : string → Label) (init_attrs : option loc)
    (unknown_label : option string) (h : heap string)
    (super_render : string → value → Attrs → result Html)
    (name : string) (v : value) (attrs : Attrs) :
  hashable v = true →
  ∃ self h' code,
    NullBooleanRadioSelect_init ugettext_lazy init_attrs unknown_label h
    = (Ok self, h')
    ∧ (nb_choices self).*1 = ["1"; "2"; "3"]
    ∧ code ∈ (nb_choices self).*1
    ∧ NullBooleanRadioSelect.render super_render name v attrs
      = super_render name (VStr code) attrs.
Proof.
  intros Hv. rewrite (render_hashable _ _ _ _ Hv).
  unfold NullBooleanRadioSelect_init, Widget_init, dict_copy, mbind', read,
    alloc, ret.
  destruct (find_key NullBooleanRadioSelect.render_codes v) as [c|] eqn:Hc.
  - apply find_key_value in Hc. simpl in Hc.
    assert (c = VStr "2" ∨ c = VStr "3") as [-> | ->].
    { repeat (apply elem_of_cons in Hc as [Hc|Hc]; [by auto|]).
      by apply elem_of_nil in Hc. }
    + destruct init_attrs; do 2 eexists; exists "2"; simpl;
        (split; [reflexivity|]); (split; [reflexivity|]);
        (split; [|reflexivity]);
        apply list_elem_of_further, list_elem_of_here.
    + destruct init_attrs; do 2 eexists; exists "3"; simpl;
        (split; [reflexivity|]); (split; [reflexivity|]);
        (split; [|reflexivity]);
        apply list_elem_of_further, list_elem_of_further, list_elem_of_here.
  - destruct init_attrs; do 2 eexists; exists "1"; simpl;
      (split; [reflexivity|]); (split; [reflexivity|]);
      (split; [|reflexivity]); apply list_elem_of_here.
Qed.

Lemma render_selects_offered_choice_witness :
  ∃ code, code ∈ ["1"; "2"; "3"]
          ∧ NullBooleanRadioSelect.render echo_render "flag" (VStr "maybe") ()
            = echo_render "flag" (VStr code) ().
Proof.
  destruct (render_selects_offered_choice
              (λ s, s) None (Some "Not sure") sample_heap
              echo_render "flag" (VStr "maybe") () eq_refl)
    as (self & h' & code & _ & Hcodes & Hin & Hrender).
  exists code. rewrite <- Hcodes. split; [exact Hin|exact Hrender].
Defined.

(** X2. Rendering one of None, True, False and submitting the code rendered
    gives the value back. *)
Theorem render_then_parse {Attrs Html Files : Type}
    (super_render : string → value → Attrs → result Html)
    (name : string) (v : value) (attrs : Attrs) (files : Files) :
  v ∈ [VNone; VBool true; VBool false] →
  ∃ code,
    NullBooleanRadioSelect.render super_render name v attrs
    = super_render name (VStr code) attrs
    ∧ NullBooleanRadioSelect.value_from_datadict
        {[name := VStr code]} files name = Ok v.
Proof.
  intros Hv.
  assert (v = VNone ∨ v = VBool true ∨ v = VBool false) as [->|[->| ->]].
  { repeat (apply elem_of_cons in Hv as [Hv|Hv]; [by auto|]).
    by apply elem_of_nil in Hv. }
  - exists "1". split; [reflexivity|].
    unfold NullBooleanRadioSelect.value_from_datadict.
    by rewrite lookup_singleton_eq.
  - exists "2". split; [reflexivity|].
    unfold NullBooleanRadioSelect.value_from_datadict.
    by rewrite lookup_singleton_eq.
  - exists "3". split; [reflexivity|].
    unfold NullBooleanRadioSelect.value_from_datadict.
    by rewrite lookup_singleton_eq.
Qed.

Lemma render_then_parse_witness :
  ∃ code,
    NullBooleanRadioSelect.render echo_render "flag" (VBool false) ()
    = echo_render "flag" (VStr code) ()
    ∧ NullBooleanRadioSelect.value_from_datadict
        {["flag" := VStr code]} () "flag" = Ok (VBool false).
Proof.
  apply (render_then_parse echo_render "flag" (VBool false) () ()).
  apply list_elem_of_further, list_elem_of_further, list_elem_of_here.
Defined.

(** X3. Whatever hashable value is submitted, it is parsed to one of None,
    True, False, and rendering the parsed value and submitting the code
    rendered parses to the same value again. *)
Theorem parse_then_render_stable {Attrs Html Files : Type}
    (super_render : string → value → Attrs → result Html)
    (data : gmap string value) (files : Files) (name : string)
    (attrs : Attrs) :
  hashable (default VNone (data !! name)) = true →
  ∃ parsed code,
    NullBooleanRadioSelect.value_from_datadict data files name = Ok parsed
    ∧ parsed ∈ [VNone; VBool true; VBool false]
    ∧ NullBooleanRadioSelect.render super_render name parsed attrs
      = super_render name (VStr code) attrs
    ∧ NullBooleanRadioSelect.value_from_datadict
        {[name := VStr code]} files name = Ok parsed.
Proof.
  intros Hv. rewrite (value_from_datadict_hashable _ _ _ Hv).
  destruct (find_key NullBooleanRadioSelect.parsed_values _) as [p|] eqn:Hp.
  - apply find_key_value in Hp. simpl in Hp.
    assert (p = VBool true ∨ p = VBool false) as [-> | ->].
    { repeat (apply elem_of_cons in Hp as [Hp|Hp]; [by auto|]).
      by apply elem_of_nil in Hp. }
    + exists (VBool true), "2". split; [done|].
      split; [apply list_elem_of_further, list_elem_of_here|].
      split; [reflexivity|].
      unfold NullBooleanRadioSelect.value_from_datadict.
      by rewrite lookup_singleton_eq.
    + exists (VBool false), "3". split; [done|].
      split; [apply list_elem_of_further, list_elem_of_further,
                list_elem_of_here|].
      split; [reflexivity|].
      unfold NullBooleanRadioSelect.value_from_datadict.
      by rewrite lookup_singleton_eq.
  - exists VNone, "1". split; [done|]. split; [apply list_elem_of_here|].
    split; [reflexivity|].
    unfold NullBooleanRadioSelect.value_from_datadict.
    by rewrite lookup_singleton_eq.
Qed.

Lemma parse_then_render_stable_witness :
  ∃ parsed code,
    NullBooleanRadioSelect.value_from_datadict submitted_one () "flag"
    = Ok parsed
    ∧ NullBooleanRadioSelect.render echo_render "flag" parsed ()
      = echo_render "flag" (VStr code) ()
    ∧ NullBooleanRadioSelect.value_from_datadict
        {["flag" := VStr code]} () "flag" = Ok parsed.
Proof.
  destruct (parse_then_render_stable echo_render submitted_one () "flag" ())
    as (parsed & code & H1 & _ & H2 & H3).
  - vm_compute. reflexivity.
  - exists parsed, code. split; [exact H1|]. split; [exact H2|exact H3].
Defined.

(** ** [build_attrs]: what always holds, edge cases, composition *)

Lemma rstrip_app_space (s : string) : rstrip (s ++ " ") = rstrip s.
Proof.
  induction s as [|c s IH]; simpl; [done|]. by rewrite IH.
Qed.

Lemma strip_app_space (s : string) : strip (s ++ " ") = strip s.
Proof.
  unfold strip. induction s as [|c s IH]; simpl; [done|].
  destruct (is_space c) eqn:Hc; [done|].
  change (String c (s ++ " ")) with (String c s ++ " ").
  apply rstrip_app_space.
Qed.

(** Stripping white space around a text that ends in a clean, non-empty
    tail keeps the tail. *)
Lemma strip_keeps_tail (a tail : string) :
  tail ≠ "" → clean_start tail → rstrip tail = tail →
  ∃ t, strip (a ++ tail) = t ++ tail.
Proof.
  intros Hne Hclean Hfix. unfold strip.
  assert (∃ t, lstrip (a ++ tail) = t ++ tail) as [t ->].
  { induction a as [|c a IH]; simpl.
    - exists "". by apply clean_start_lstrip.
    - destruct (is_space c); [done|]. by exists (String c a). }
  exists t. by apply rstrip_fixed_app.
Qed.

(** X4. Whatever is passed in, the mapping build_attrs returns has a "class"
    entry, and its value has no white space at either end. *)
Theorem build_attrs_class_always_stripped (self : BootstrapWidget.t)
    (extra_attrs : option loc) (kwargs : gmap string string)
    (h : heap string) :
  allocated h (BootstrapWidget.extra_attrs self) →
  from_option (allocated h) True extra_attrs →
  ∃ d v, built self extra_attrs kwargs h = Some d
         ∧ d !! "class" = Some v
         ∧ strip v = v.
Proof.
  intros Hcls Hext. do 2 eexists. split; [by apply built_run|].
  split; [apply lookup_insert_eq|apply strip_idemp].
Qed.

Lemma build_attrs_class_always_stripped_witness :
  ∃ d v, built (instance RadioSelect 4 false) (Some 6) ∅ sample_heap = Some d
         ∧ d !! "class" = Some v
         ∧ strip v = v.
Proof.
  apply (build_attrs_class_always_stripped
           (instance RadioSelect 4 false) (Some 6) ∅ sample_heap).
  - vm_compute. lia.
  - vm_compute. lia.
Defined.

(** X5. The mapping build_attrs returns has exactly the keys of its sources
    plus "class": a key other than "class" is absent from the result if
    and only if no source has it. *)
Theorem build_attrs_keys (self : BootstrapWidget.t)
    (extra_attrs : option loc) (kwargs : gmap string string)
    (h : heap string) (k : string) :
  allocated h (BootstrapWidget.extra_attrs self) →
  from_option (allocated h) True extra_attrs →
  ∃ d, built self extra_attrs kwargs h = Some d
       ∧ (d !! k = None ↔
          k ≠ "class"
          ∧ call_site extra_attrs h !! k = None
          ∧ deref h (BootstrapWidget.extra_attrs self) !! k = None
          ∧ required_default (BootstrapWidget.is_required self) !! k = None
          ∧ kwargs !! k = None
          ∧ deref h (BootstrapWidget.attrs self) !! k = None).
Proof.
  intros Hcls Hext. eexists. split; [by apply built_run|].
  destruct (decide (k = "class")) as [->|Hk].
  - rewrite lookup_insert_eq. split; [done|]. by intros [? _].
  - rewrite lookup_insert_ne by done. unfold supplied.
    rewrite !lookup_union_first.
    destruct (call_site extra_attrs h !! k),
      (deref h (BootstrapWidget.extra_attrs self) !! k),
      (required_default (BootstrapWidget.is_required self) !! k),
      (kwargs !! k), (deref h (BootstrapWidget.attrs self) !! k);
      intuition congruence.
Qed.

(** Not required and nobody supplied the marker: no "aria-required". *)
Lemma build_attrs_keys_witness :
  ∃ d, built (instance TextInput 4 false) (Some 5) ∅ sample_heap = Some d
       ∧ d !! "aria-required" = None.
Proof.
  destruct (build_attrs_keys (instance TextInput 4 false) (Some 5) ∅
              sample_heap "aria-required")
    as (d & Hd & Hnone).
  - vm_compute. lia.
  - vm_compute. lia.
  - exists d. split; [exact Hd|]. apply Hnone.
    repeat split; try discriminate; vm_compute; reflexivity.
Defined.

(** X6. For a widget type with an empty CSS class list (RadioSelect,
    CheckboxSelectMultiple and what derives from them), the class
    supplied comes out stripped and nothing is added; with no class
    supplied the result still carries "class", set to the empty string. *)
Theorem build_attrs_no_css_classes (self : BootstrapWidget.t)
    (extra_attrs : option loc) (kwargs : gmap string string)
    (h : heap string) :
  allocated h (BootstrapWidget.extra_attrs self) →
  from_option (allocated h) True extra_attrs →
  BootstrapWidget.css_classes self = [] →
  ∃ d, built self extra_attrs kwargs h = Some d
       ∧ (∀ c, supplied self extra_attrs kwargs h !! "class" = Some c →
               d !! "class" = Some (strip c))
       ∧ (supplied self extra_attrs kwargs h !! "class" = None →
          d !! "class" = Some "").
Proof.
  intros Hcls Hext Hcss. eexists. split; [by apply built_run|].
  rewrite lookup_insert_eq, Hcss. split.
  - intros c ->. simpl. f_equal.
    change (c ++ " " ++ join " " []) with (c ++ " "). apply strip_app_space.
  - by intros ->.
Qed.

Lemma build_attrs_no_css_classes_witness :
  ∃ d, built (instance NullBooleanRadioSelect 4 true) None ∅ sample_heap
       = Some d
       ∧ d !! "class" = Some "".
Proof.
  destruct (build_attrs_no_css_classes
              (instance NullBooleanRadioSelect 4 true) None ∅ sample_heap)
    as (d & Hd & _ & Hnone).
  - vm_compute. lia.
  - exact I.
  - reflexivity.
  - exists d. split; [exact Hd|]. apply Hnone. vm_compute. reflexivity.
Defined.

(** X7. Passing an empty dictionary as extra_attrs gives the same mapping as
    passing none. *)
Theorem build_attrs_empty_extra (self : BootstrapWidget.t) (e : loc)
    (kwargs : gmap string string) (h : heap string) :
  allocated h (BootstrapWidget.extra_attrs self) →
  allocated h e →
  deref h e = ∅ →
  built self (Some e) kwargs h = built self None kwargs h
  ∧ is_Some (built self None kwargs h).
Proof.
  intros Hcls He Hempty.
  rewrite !built_run by done.
  unfold supplied, call_site. rewrite Hempty. split; [done|eauto].
Qed.

Lemma build_attrs_empty_extra_witness :
  built (instance DateInput 5 true) (Some 0) ∅ sample_heap
  = built (instance DateInput 5 true) None ∅ sample_heap.
Proof.
  apply (build_attrs_empty_extra (instance DateInput 5 true) 0 ∅ sample_heap).
  - vm_compute. lia.
  - vm_compute. lia.
  - vm_compute. reflexivity.
Defined.

Lemma supplied_frame (self : BootstrapWidget.t) (extra_attrs : option loc)
    (kwargs : gmap string string) (h h' : heap string) :
  (∀ l, allocated h l → deref h' l = deref h l) →
  allocated h (BootstrapWidget.attrs self) →
  allocated h (BootstrapWidget.extra_attrs self) →
  from_option (allocated h) True extra_attrs →
  supplied self extra_attrs kwargs h' = supplied self extra_attrs kwargs h.
Proof.
  intros Hframe Hattrs Hcls Hext. unfold supplied, call_site.
  rewrite !Hframe by done.
  destruct extra_attrs as [e|]; [|done]. by rewrite Hframe.
Qed.

(** X8. Calling build_attrs twice with the same arguments returns two
    different dictionaries with the same contents: a call neither
    depends on nor disturbs an earlier one. *)
Theorem build_attrs_repeatable (self : BootstrapWidget.t)
    (extra_attrs : option loc) (kwargs : gmap string string)
    (h : heap string) :
  allocated h (BootstrapWidget.attrs self) →
  allocated h (BootstrapWidget.extra_attrs self) →
  from_option (allocated h) True extra_attrs →
  ∃ r1 h1 r2 h2,
    BootstrapWidget.build_attrs self extra_attrs kwargs h = (Ok r1, h1)
    ∧ BootstrapWidget.build_attrs self extra_attrs kwargs h1 = (Ok r2, h2)
    ∧ r1 ≠ r2
    ∧ deref h2 r2 = deref h2 r1.
Proof.
  intros Hattrs Hcls Hext.
  destruct (build_attrs_run self extra_attrs kwargs h Hcls)
    as (h1 & Hrun1 & Hnext1 & Hframe1 & Hd1).
  { by intros e ->. }
  assert (Hgrow : ∀ l, allocated h l → allocated h1 l).
  { unfold allocated. intros l Hl. lia. }
  assert (Hold : ∀ l, allocated h l → deref h1 l = deref h l).
  { intros l Hl. apply Hframe1. unfold allocated in Hl. lia. }
  destruct (build_attrs_run self extra_attrs kwargs h1 (Hgrow _ Hcls))
    as (h2 & Hrun2 & Hnext2 & Hframe2 & Hd2).
  { intros e ->. by apply Hgrow. }
  exists (next h), h1, (next h1), h2.
  split; [done|]. split; [done|]. split; [lia|].
  rewrite Hd2, (Hframe2 (next h)) by lia. rewrite Hd1.
  by rewrite (supplied_frame self extra_attrs kwargs h h1).
Qed.

Lemma build_attrs_repeatable_witness :
  ∃ r1 h1 r2 h2,
    BootstrapWidget.build_attrs (instance TimeInput 5 true) (Some 6) ∅
      sample_heap = (Ok r1, h1)
    ∧ BootstrapWidget.build_attrs (instance TimeInput 5 true) (Some 6) ∅ h1
      = (Ok r2, h2)
    ∧ r1 ≠ r2
    ∧ deref h2 r2 = deref h2 r1.
Proof.
  apply (build_attrs_repeatable (instance TimeInput 5 true) (Some 6) ∅
           sample_heap).
  - vm_compute. lia.
  - vm_compute. lia.
  - vm_compute. lia.
Defined.

(** X9. Feeding the mapping build_attrs returned back in as extra_attrs
    appends the CSS classes a second time: the class value of the second
    result is the first one followed by the listed classes again. *)
Theorem build_attrs_reapplied (self : BootstrapWidget.t)
    (extra_attrs : option loc) (kwargs : gmap string string)
    (h : heap string) :
  allocated h (BootstrapWidget.extra_attrs self) →
  from_option (allocated h) True extra_attrs →
  BootstrapWidget.css_classes self ≠ [] →
  Forall css_token (BootstrapWidget.css_classes self) →
  ∃ r1 h1 v1 d2,
    BootstrapWidget.build_attrs self extra_attrs kwargs h = (Ok r1, h1)
    ∧ deref h1 r1 !! "class" = Some v1
    ∧ built self (Some r1) kwargs h1 = Some d2
    ∧ d2 !! "class"
      = Some (v1 ++ " " ++ join " " (BootstrapWidget.css_classes self)).
Proof.
  intros Hcls Hext Hne Htok.
  destruct (build_attrs_run self extra_attrs kwargs h Hcls)
    as (h1 & Hrun1 & Hnext1 & Hframe1 & Hd1).
  { by intros e ->. }
  destruct (join_tokens _ Hne Htok) as (J1 & J2 & J3).
  set (J := join " " (BootstrapWidget.css_classes self)) in *.
  set (c := default "" (supplied self extra_attrs kwargs h !! "class")) in *.
  destruct (strip_keeps_tail (c ++ " ") J J1 J2 J3) as [t Ht].
  assert (Hv1 : strip (c ++ " " ++ J) = t ++ J).
  { rewrite <- Ht. f_equal. clear. induction c; simpl; [done|by f_equal]. }
  exists (next h), h1, (t ++ J). eexists.
  split; [done|]. split; [by rewrite Hd1, lookup_insert_eq, Hv1|].
  split.
  { apply built_run; unfold allocated in *; simpl; lia. }
  rewrite lookup_insert_eq. f_equal.
  assert (Hsup : supplied self (Some (next h)) kwargs h1 !! "class"
                 = Some (t ++ J)).
  { unfold supplied, call_site.
    by rewrite lookup_union_first, Hd1, lookup_insert_eq, Hv1. }
  rewrite Hsup. simpl. apply strip_class_join; try done.
  - destruct t; [by destruct J|done].
  - rewrite <- Hv1. apply strip_idemp.
Qed.

Lemma build_attrs_reapplied_witness :
  ∃ r1 h1 d2,
    BootstrapWidget.build_attrs (instance TextInput 5 false) None ∅
      sample_heap = (Ok r1, h1)
    ∧ built (instance TextInput 5 false) (Some r1) ∅ h1 = Some d2
    ∧ d2 !! "class" = Some "foo form-control form-control".
Proof.
  destruct (build_attrs_reapplied (instance TextInput 5 false) None ∅
              sample_heap)
    as (r1 & h1 & v1 & d2 & Hrun & Hv1 & Hd2 & Hclass).
  - vm_compute. lia.
  - exact I.
  - discriminate.
  - apply css_classes_of_tokens.
  - exists r1, h1, d2. split; [exact Hrun|]. split; [exact Hd2|].
    rewrite Hclass. f_equal.
    assert (Hfirst : BootstrapWidget.build_attrs
                       (instance TextInput 5 false) None ∅ sample_heap
                     = BootstrapWidget.build_attrs
                         (instance TextInput 5 false) None ∅ sample_heap)
      by reflexivity.
    rewrite Hrun in Hfirst at 1. vm_compute in Hfirst.
    injection Hfirst as -> ->. vm_compute in Hv1.
    injection Hv1 as <-. reflexivity.
Defined.

(** X10. An autofocusing widget type sends autofocus="autofocus" whatever the
    instance attributes and keyword arguments say: the class-level
    entry overwrites them, and only call-site extra attributes can
    replace it. *)
Theorem build_attrs_autofocus (c : styled) (l : loc) (attrs : loc)
    (is_required : bool) (extra_attrs : option loc)
    (kwargs : gmap string string) (h : heap string) :
  own_extra_attrs c = Some l →
  allocated h l →
  from_option (allocated h) True extra_attrs →
  deref h l = {["autofocus" := "autofocus"]} →
  call_site extra_attrs h !! "autofocus" = None →
  ∃ d, built (instance c attrs is_required) extra_attrs kwargs h = Some d
       ∧ d !! "autofocus" = Some "autofocus".
Proof.
  intros Hown Hl Hext Hdict Hcall.
  assert (Hloc : extra_attrs_of c = l).
  { unfold extra_attrs_of, class_attr. by rewrite Hown. }
  eexists. split.
  { apply built_run; [|done]. simpl. by rewrite Hloc. }
  rewrite lookup_insert_ne by done. unfold supplied. simpl.
  by rewrite Hloc, lookup_union_first, Hcall, lookup_union_first, Hdict,
    lookup_singleton_eq.
Qed.

(** Instance attributes that set autofocus to "no" do not win. *)
Lemma build_attrs_autofocus_witness :
  ∃ d, built (instance AutofocusTextarea 4 false) (Some 5)
         {["autofocus" := "no"]} sample_heap = Some d
       ∧ d !! "autofocus" = Some "autofocus".
Proof.
  apply (build_attrs_autofocus AutofocusTextarea 3 4 false (Some 5)
           {["autofocus" := "no"]} sample_heap).
  - reflexivity.
  - vm_compute. lia.
  - vm_compute. lia.
  - vm_compute. reflexivity.
  - vm_compute. reflexivity.
Defined.

(** ** TemplateWidget: construction and rendering *)

Lemma Widget_build_attrs_run (self_attrs : loc) (extra_attrs : option loc)
    (kwargs : gmap string string) (h : heap string) :
  from_option (allocated h) True extra_attrs →
  ∃ h', Widget_build_attrs self_attrs extra_attrs kwargs h = (Ok (next h), h')
        ∧ next h' = S (next h)
        ∧ (∀ l, l ≠ next h → deref h' l = deref h l)
        ∧ deref h' (next h)
          = call_site extra_attrs h ∪ (kwargs ∪ deref h self_attrs).
Proof.
  intros Hext.
  unfold Widget_build_attrs, call_site, dict_new, dict_update, dict_bool,
    mbind', read, write, alloc, ret, deref.
  destruct extra_attrs as [e|]; simpl in *.
  - assert (He : e ≠ next h) by (unfold allocated in Hext; lia).
    rewrite ?lookup_insert_eq, ?lookup_insert_ne by done; simpl.
    destruct (size (default ∅ (cells h !! e)) =? 0)%nat eqn:Hsz; simpl;
      rewrite ?lookup_insert_eq, ?lookup_insert_ne by done; simpl;
      (eexists; split; [reflexivity|]; simpl; split; [reflexivity|]);
      (split; [intros l Hl; by rewrite ?lookup_insert_ne by done|]);
      rewrite ?lookup_insert_eq; simpl; [|done].
    apply Nat.eqb_eq, map_size_empty_iff in Hsz. rewrite Hsz.
    by rewrite (left_id_L ∅ (∪)).
  - eexists. split; [reflexivity|]. simpl. split; [reflexivity|].
    split; [intros l Hl; by rewrite lookup_insert_ne|].
    by rewrite lookup_insert_eq, (left_id_L ∅ (∪)).
Qed.

Lemma TemplateWidget_init_run (template_name : option string)
    (attrs : option loc) (extra_context : gmap string value) (w : world) :
  ∃ self w',
    TemplateWidget.init template_name attrs extra_context w = (Ok self, w')
    ∧ TemplateWidget.template_name self
      = (if TemplateWidget.truthy template_name then template_name else None)
    ∧ deref (ctx_heap w') TemplateWidget.extra_context
      = extra_context ∪ deref (ctx_heap w) TemplateWidget.extra_context
    ∧ (∀ l, allocated (attr_heap w) l →
            allocated (attr_heap w') l
            ∧ deref (attr_heap w') l = deref (attr_heap w) l).
Proof.
  unfold TemplateWidget.init, in_ctx, in_attrs, Widget_init, dict_update_kw,
    dict_copy, mbind', read, write, alloc, ret.
  destruct attrs as [a|]; simpl; do 2 eexists; (split; [reflexivity|]); simpl;
    (split; [reflexivity|]); (split; [apply deref_insert_eq|]);
    intros l Hl; unfold allocated, deref in *; simpl;
    (split; [lia|]); rewrite lookup_insert_ne by lia; done.
Qed.

Lemma TemplateWidget_render_run {Template Html : Type}
    (get_template : option string → result Template)
    (flatatt : gmap string string → string)
    (template_render : Template → gmap string context_value → result Html)
    (self : TemplateWidget.t) (name : string) (value : value)
    (attrs : option loc) (w : world) (template : Template) :
  get_template (TemplateWidget.template_name self) = Ok template →
  from_option (allocated (attr_heap w)) True attrs →
  ∃ w',
    TemplateWidget_render get_template flatatt template_render
      self name value attrs w
    = (template_render template
         ((Value <$> deref (ctx_heap w) TemplateWidget.extra_context)
          ∪ <["name" := Value (VStr name)]>
              (<["value" := Value value]>
                 (<["attrs" :=
                      Value (VStr (flatatt
                                     (call_site attrs (attr_heap w)
                                      ∪ ({["name" := name]}
                                         ∪ deref (attr_heap w)
                                             (TemplateWidget.attrs self)))))]>
                    (<["widget" := WidgetRef self]> ∅)))),
       w')
    ∧ ctx_heap w' = ctx_heap w
    ∧ (∀ l, allocated (attr_heap w) l →
            deref (attr_heap w') l = deref (attr_heap w) l).
Proof.
  intros Htpl Hext.
  destruct (Widget_build_attrs_run (TemplateWidget.attrs self) attrs
              {["name" := name]} (attr_heap w) Hext)
    as (h' & Hrun & Hnext & Hframe & Hd).
  unfold TemplateWidget_render, TemplateWidget.read_extra_context,
    in_attrs, in_ctx, mbind', lift, read, ret.
  rewrite Htpl. simpl. rewrite Hrun. simpl. rewrite Hd.
  eexists. split; [reflexivity|]. split; [reflexivity|].
  intros l Hl. apply Hframe. unfold allocated in Hl. lia.
Qed.

(** X11. Constructing two instances one after the other leaves the keyword
    arguments of both in the class-level dictionary, the later ones
    winning, and the first instance reads all of them. *)
Theorem TemplateWidget_init_accumulates
    (name1 name2 : option string) (attrs1 attrs2 : option loc)
    (kw1 kw2 : gmap string value) (w : world) :
  ∃ first w1 second w2,
    TemplateWidget.init name1 attrs1 kw1 w = (Ok first, w1)
    ∧ TemplateWidget.init name2 attrs2 kw2 w1 = (Ok second, w2)
    ∧ deref (ctx_heap w2) TemplateWidget.extra_context
      = kw2 ∪ (kw1 ∪ deref (ctx_heap w) TemplateWidget.extra_context)
    ∧ TemplateWidget.read_extra_context first w2
      = (Ok (kw2 ∪ (kw1 ∪ deref (ctx_heap w) TemplateWidget.extra_context)),
         w2).
Proof.
  destruct (TemplateWidget_init_run name1 attrs1 kw1 w)
    as (first & w1 & Hrun1 & _ & Hctx1 & _).
  destruct (TemplateWidget_init_run name2 attrs2 kw2 w1)
    as (second & w2 & Hrun2 & _ & Hctx2 & _).
  exists first, w1, second, w2. rewrite Hctx1 in Hctx2.
  split; [done|]. split; [done|]. split; [done|].
  unfold TemplateWidget.read_extra_context, in_ctx, read. rewrite Hctx2.
  by destruct w2.
Qed.

(** X12. When the loader does not find the template, render raises the
    loader's error and has built nothing: the stores are as before. *)
Theorem TemplateWidget_render_template_missing {Template Html : Type}
    (get_template : option string → result Template)
    (flatatt : gmap string string → string)
    (template_render : Template → gmap string context_value → result Html)
    (self : TemplateWidget.t) (name : string) (value : value)
    (attrs : option loc) (w : world) (e : exn) :
  get_template (TemplateWidget.template_name self) = Raise e →
  TemplateWidget_render get_template flatatt template_render
    self name value attrs w = (Raise e, w).
Proof.
  intros Hfail. unfold TemplateWidget_render, mbind', lift.
  by rewrite Hfail.
Qed.

(** An instance constructed with an empty template name has none. *)
Lemma TemplateWidget_render_template_missing_witness :
  TemplateWidget_render sample_get_template sample_flatatt
    sample_template_render (TemplateWidget.Build None 4) "when" VNone None
    sample_world = (Raise TypeError, sample_world).
Proof.
  apply (TemplateWidget_render_template_missing sample_get_template
           sample_flatatt sample_template_render
           (TemplateWidget.Build None 4) "when" VNone None sample_world
           TypeError).
  reflexivity.
Defined.

(** X13. The template receives name, value, attrs and widget, except where
    the class-level extra_context has an entry under the same key: that
    entry replaces the parameter. The attrs parameter is the flattened
    merge of the instance attributes, the field name under "name" and
    the call-site attributes, with no CSS class added. *)
Theorem TemplateWidget_render_params {Template Html : Type}
    (get_template : option string → result Template)
    (flatatt : gmap string string → string)
    (template_render : Template → gmap string context_value → result Html)
    (self : TemplateWidget.t) (name : string) (value : value)
    (attrs : option loc) (w : world) (template : Template) :
  get_template (TemplateWidget.template_name self) = Ok template →
  from_option (allocated (attr_heap w)) True attrs →
  ∃ params w',
    TemplateWidget_render get_template flatatt template_render
      self name value attrs w = (template_render template params, w')
    ∧ (∀ k v, deref (ctx_heap w) TemplateWidget.extra_context !! k = Some v →
              params !! k = Some (Value v))
    ∧ (∀ k, deref (ctx_heap w) TemplateWidget.extra_context !! k = None →
            params !! k =
              if decide (k = "name") then Some (Value (VStr name))
              else if decide (k = "value") then Some (Value value)
              else if decide (k = "attrs") then
                Some (Value (VStr (flatatt
                                     (call_site attrs (attr_heap w)
                                      ∪ ({["name" := name]}
                                         ∪ deref (attr_heap w)
                                             (TemplateWidget.attrs self))))))
              else if decide (k = "widget") then Some (WidgetRef self)
              else None).
Proof.
  intros Htpl Hext.
  destruct (TemplateWidget_render_run get_template flatatt template_render
              self name value attrs w template Htpl Hext)
    as (w' & Hrun & _ & _).
  do 2 eexists. split; [exact Hrun|]. split.
  - intros k v Hk. by rewrite lookup_union_first, lookup_fmap, Hk.
  - intros k Hk. rewrite lookup_union_first, lookup_fmap, Hk. simpl.
    repeat (case_decide; [subst; by rewrite ?lookup_insert_eq,
                            ?lookup_insert_ne by done|]).
    by rewrite !lookup_insert_ne, lookup_empty by done.
Qed.

Lemma TemplateWidget_render_params_witness :
  ∃ params w',
    TemplateWidget_render sample_get_template sample_flatatt
      sample_template_render (TemplateWidget.Build (Some "a.html") 4)
      "when" (VStr "noon") (Some 5) sample_world
    = (Ok ("a.html", params), w')
    ∧ params !! "name" = Some (Value (VStr "when"))
    ∧ params !! "widget"
      = Some (WidgetRef (TemplateWidget.Build (Some "a.html") 4)).
Proof.
  destruct (TemplateWidget_render_params sample_get_template sample_flatatt
              sample_template_render (TemplateWidget.Build (Some "a.html") 4)
              "when" (VStr "noon") (Some 5) sample_world "a.html")
    as (params & w' & Hrun & _ & Hbase).
  - reflexivity.
  - vm_compute. lia.
  - exists params, w'. split; [exact Hrun|]. split.
    + apply (Hbase "name"). vm_compute. reflexivity.
    + apply (Hbase "widget"). vm_compute. reflexivity.
Defined.

(** X14. Rendering builds one new attribute dictionary and changes nothing
    else: the class-level extra_context and every attribute dictionary
    that existed keep their contents. *)
Theorem TemplateWidget_render_frame {Template Html : Type}
    (get_template : option string → result Template)
    (flatatt : gmap string string → string)
    (template_render : Template → gmap string context_value → result Html)
    (self : TemplateWidget.t) (name : string) (value : value)
    (attrs : option loc) (w : world) (template : Template) :
  get_template (TemplateWidget.template_name self) = Ok template →
  from_option (allocated (attr_heap w)) True attrs →
  ∃ r w',
    TemplateWidget_render get_template flatatt template_render
      self name value attrs w = (r, w')
    ∧ ctx_heap w' = ctx_heap w
    ∧ (∀ l, allocated (attr_heap w) l →
            deref (attr_heap w') l = deref (attr_heap w) l).
Proof.
  intros Htpl Hext.
  destruct (TemplateWidget_render_run get_template flatatt template_render
              self name value attrs w template Htpl Hext)
    as (w' & Hrun & Hctx & Hframe).
  eauto.
Qed.

Lemma TemplateWidget_render_frame_witness :
  ∃ r w',
    TemplateWidget_render sample_get_template sample_flatatt
      sample_template_render (TemplateWidget.Build (Some "a.html") 4)
      "when" (VStr "noon") (Some 5) sample_world = (r, w')
    ∧ ctx_heap w' = ctx_heap sample_world
    ∧ deref (attr_heap w') 4 = deref (attr_heap sample_world) 4.
Proof.
  destruct (TemplateWidget_render_frame sample_get_template sample_flatatt
              sample_template_render (TemplateWidget.Build (Some "a.html") 4)
              "when" (VStr "noon") (Some 5) sample_world "a.html")
    as (r & w' & Hrun & Hctx & Hframe).
  - reflexivity.
  - vm_compute. lia.
  - exists r, w'. split; [exact Hrun|]. split; [exact Hctx|].
    apply Hframe. vm_compute. lia.
Defined.

(** X15. Constructing a second instance changes what the first one renders:
    every keyword argument of the second constructor call reaches the
    template of the first instance. *)
Theorem TemplateWidget_later_init_reaches_earlier_render
    {Template Html : Type}
    (get_template : option string → result Template)
    (flatatt : gmap string string → string)
    (template_render : Template → gmap string context_value → result Html)
    (name1 name2 : option string) (attrs1 attrs2 : option loc)
    (kw1 kw2 : gmap string value) (w : world)
    (name : string) (value : value) (attrs : option loc)
    (template : Template) :
  get_template (if TemplateWidget.truthy name1 then name1 else None)
  = Ok template →
  from_option (allocated (attr_heap w)) True attrs →
  ∃ first w1 second w2 params w3,
    TemplateWidget.init name1 attrs1 kw1 w = (Ok first, w1)
    ∧ TemplateWidget.init name2 attrs2 kw2 w1 = (Ok second, w2)
    ∧ TemplateWidget_render get_template flatatt template_render
        first name value attrs w2 = (template_render template params, w3)
    ∧ (∀ k v, kw2 !! k = Some v → params !! k = Some (Value v)).
Proof.
  intros Htpl Hext.
  destruct (TemplateWidget_init_run name1 attrs1 kw1 w)
    as (first & w1 & Hrun1 & Hname & Hctx1 & Hold1).
  destruct (TemplateWidget_init_run name2 attrs2 kw2 w1)
    as (second & w2 & Hrun2 & _ & Hctx2 & Hold2).
  rewrite <- Hname in Htpl.
  assert (Hext2 : from_option (allocated (attr_heap w2)) True attrs).
  { destruct attrs as [a|]; [|done]. simpl in *.
    by apply Hold2, Hold1. }
  destruct (TemplateWidget_render_run get_template flatatt template_render
              first name value attrs w2 template Htpl Hext2)
    as (w3 & Hrun3 & _ & _).
  exists first, w1, second, w2. do 2 eexists.
  split; [done|]. split; [done|]. split; [exact Hrun3|].
  intros k v Hk.
  by rewrite lookup_union_first, lookup_fmap, Hctx2, lookup_union_first, Hk.
Qed.

Lemma TemplateWidget_later_init_reaches_earlier_render_witness :
  ∃ first w1 second w2 params w3,
    TemplateWidget.init (Some "a.html") None ∅ sample_world = (Ok first, w1)
    ∧ TemplateWidget.init (Some "b.html") None {["name" := VStr "other"]} w1
      = (Ok second, w2)
    ∧ TemplateWidget_render sample_get_template sample_flatatt
        sample_template_render first "when" VNone None w2
      = (Ok ("a.html", params), w3)
    ∧ params !! "name" = Some (Value (VStr "other")).
Proof.
  destruct (TemplateWidget_later_init_reaches_earlier_render
              sample_get_template sample_flatatt sample_template_render
              (Some "a.html") (Some "b.html") None None
              ∅ {["name" := VStr "other"]} sample_world
              "when" VNone None "a.html")
    as (first & w1 & second & w2 & params & w3 & H1 & H2 & H3 & Hkw).
  - reflexivity.
  - exact I.
  - exists first, w1, second, w2, params, w3.
    split; [exact H1|]. split; [exact H2|]. split; [exact H3|].
    apply Hkw. vm_compute. reflexivity.
Defined.

(** ** ModelWidgets: size, outcomes of a lookup, inherited methods *)

Lemma list_to_set_remove_dups_L (l : list string) :
  (list_to_set (remove_dups l) : gset string) = list_to_set l.
Proof.
  apply set_eq. intros x.
  by rewrite !elem_of_list_to_set, elem_of_remove_dups.
Qed.

(** X16. The length of a ModelWidgets is the number of distinct names among
    the override keys and the model's field names: a name that is both
    is counted once. *)
Theorem len_counts_distinct_names (self : ModelWidgets.t) :
  ModelWidgets.len self = length (remove_dups (counted_names self)).
Proof.
  unfold ModelWidgets.len, counted_names.
  rewrite <- (size_list_to_set (C := gset string)) by apply NoDup_remove_dups.
  rewrite list_to_set_remove_dups_L, list_to_set_app_L.
  f_equal. apply (comm_L (∪)).
Qed.

Lemma getitem_outcome (self : ModelWidgets.t) (key : string) :
  ∃ r, ModelWidgets.getitem key self = (r, self)
       ∧ ((∃ v, r = Ok v)
          ∨ r = Raise FieldDoesNotExist
          ∨ r = Raise AttributeError).
Proof.
  unfold ModelWidgets.getitem, ModelWidgets.subscript,
    ModelWidgets.formfield_widget, models.get_field, mbind', get_state,
    lift, ret.
  case_bool_decide as Hk.
  - destruct (assoc_keys _ _ Hk) as [v ->]. eauto.
  - destruct (List.find _ _) as [field|]; [|eauto].
    destruct (models.formfield field); eauto.
Qed.

(** X17. A lookup either returns something or raises FieldDoesNotExist or
    AttributeError, never KeyError, and in every case leaves the
    instance as it was. *)
Theorem getitem_outcomes (self : ModelWidgets.t) (key : string) :
  ∃ r, ModelWidgets.getitem key self = (r, self)
       ∧ r ≠ Raise KeyError
       ∧ ((∃ v, r = Ok v)
          ∨ r = Raise FieldDoesNotExist
          ∨ r = Raise AttributeError).
Proof.
  destruct (getitem_outcome self key) as (r & Hrun & Hr).
  exists r. split; [done|]. split; [|done].
  destruct Hr as [[v ->]|[->| ->]]; discriminate.
Qed.

(** X18. The membership test inherited from Mapping never answers False, and
    get never falls back on its default: for a name the lookup cannot
    resolve, both raise the lookup's error instead. *)
Theorem Mapping_contains_never_false (self : ModelWidgets.t) (key : string)
    (dflt : obj) :
  (Mapping_contains key self = (Ok true, self)
   ∧ ∃ v, ModelWidgets.getitem key self = (Ok v, self)
          ∧ Mapping_get key dflt self = (Ok v, self))
  ∨ (∃ e, e ∈ [FieldDoesNotExist; AttributeError]
          ∧ ModelWidgets.getitem key self = (Raise e, self)
          ∧ Mapping_contains key self = (Raise e, self)
          ∧ Mapping_get key dflt self = (Raise e, self)).
Proof.
  unfold Mapping_contains, Mapping_get.
  destruct (getitem_outcome self key) as (r & -> & [[v ->]|[->| ->]]).
  - left. eauto.
  - right. exists FieldDoesNotExist. split; [apply list_elem_of_here|done].
  - right. exists AttributeError.
    split; [apply list_elem_of_further, list_elem_of_here|done].
Qed.

(** X19. Without an override, a lookup that succeeds returns either one of
    the thirteen styled classes listed in widget_map, never an
    autofocusing class or NullBooleanRadioSelect, or else a widget
    instance whose class widget_map does not list. *)
Theorem getitem_model_result (self : ModelWidgets.t) (key : string)
    (r : obj) :
  key ∉ (ModelWidgets.overrides self).*1 →
  ModelWidgets.getitem key self = (Ok r, self) →
  (∃ c, r = Class (Styled c)
        ∧ c ∉ [AutofocusTextInput; AutofocusPasswordInput; AutofocusTextarea;
               NullBooleanRadioSelect])
  ∨ (∃ w, r = Instance w
          ∧ assoc ModelWidgets.widget_map (models.__class__ w) = None).
Proof.
  intros Hk.
  unfold ModelWidgets.getitem, ModelWidgets.formfield_widget,
    models.get_field, mbind', get_state, lift, ret.
  rewrite bool_decide_eq_false_2 by done.
  destruct (List.find _ _) as [field|]; [|done].
  destruct (models.formfield field) as [form_field|]; [|done].
  rewrite widget_map_entries.
  destruct (models.__class__ (models.widget form_field)) as [[]|[]] eqn:Hc;
    intros [= <-];
    try (right; eexists; split; [reflexivity|];
         by rewrite widget_map_entries, Hc);
    left; eexists; (split; [reflexivity|]);
    intros Hin;
    repeat (apply elem_of_cons in Hin as [Hin|Hin]; [discriminate|]);
    by apply elem_of_nil in Hin.
Qed.

Lemma getitem_model_result_witness :
  ∃ w, Instance {| models.__class__ := Host (forms.Other "CheckboxInput");
                   models.widget_attrs := ∅ |} = Instance w
       ∧ assoc ModelWidgets.widget_map (models.__class__ w) = None.
Proof.
  destruct (getitem_model_result sample_widgets "done"
              (Instance {| models.__class__ :=
                             Host (forms.Other "CheckboxInput");
                           models.widget_attrs := ∅ |}))
    as [(c & Hc & _)|Hw].
  - intros H. repeat (apply elem_of_cons in H as [H|H]; [discriminate|]).
    by apply elem_of_nil in H.
  - reflexivity.
  - discriminate.
  - exact Hw.
Defined.

(** ** The constructors of the two tri-state widgets *)

(** X20. Both constructors build the same instance: its attributes are a new
    dictionary holding a copy of the argument (empty when there is
    none), every dictionary that existed keeps its contents, the codes
    offered are "1", "2", "3" in that order, and a missing or empty
    unknown_label gives the first choice the label "Unknown". *)
Theorem null_boolean_init {Label : Type} (ugettext_lazy : string → Label)
    (attrs : option loc) (unknown_label : option string) (h : heap string) :
  ∃ self h',
    NullBooleanSelect_init ugettext_lazy attrs unknown_label h = (Ok self, h')
    ∧ NullBooleanRadioSelect_init ugettext_lazy attrs unknown_label h
      = (Ok self, h')
    ∧ ¬ allocated h (nb_attrs self)
    ∧ deref h' (nb_attrs self) = call_site attrs h
    ∧ (∀ l, allocated h l → deref h' l = deref h l)
    ∧ (nb_choices self).*1 = ["1"; "2"; "3"]
    ∧ (unknown_label = None ∨ unknown_label = Some "" →
       (nb_choices self).*2 !! 0%nat = Some (ugettext_lazy "Unknown")).
Proof.
  unfold NullBooleanSelect_init, NullBooleanRadioSelect_init, Widget_init,
    dict_copy, mbind', read, alloc, ret, call_site.
  destruct attrs as [a|]; simpl; do 2 eexists;
    (split; [reflexivity|]); (split; [reflexivity|]); simpl;
    (split; [unfold allocated; lia|]);
    (split; [apply deref_insert_eq|]);
    (split; [intros l Hl; unfold allocated, deref in *; simpl;
             by rewrite lookup_insert_ne by lia|]);
    (split; [reflexivity|]); by intros [-> | ->].
Qed.

Lemma null_boolean_init_witness :
  ∃ self h',
    NullBooleanRadioSelect_init (λ s : string, s) (Some 5) (Some "")
      sample_heap = (Ok self, h')
    ∧ deref h' (nb_attrs self) = deref sample_heap 5
    ∧ (nb_choices self).*2 !! 0%nat = Some "Unknown".
Proof.
  destruct (null_boolean_init (λ s : string, s) (Some 5) (Some "")
              sample_heap)
    as (self & h' & _ & Hrun & _ & Hattrs & _ & _ & Hlabel).
  exists self, h'. split; [exact Hrun|]. split; [exact Hattrs|].
  apply Hlabel. right. reflexivity.
Defined.
